(** * Vision MCP: webcam still-frame and burst capture (vision_mcp.py)

    A shallow embedding of the camera session manager of [vision_mcp.py]
    and the properties of its open / capture / burst operations.

    Modelling conventions.
    - Python [int] is [Z].  Where the rounding of a [float] can change
      an integer result (the frame count computed from the duration) the
      float is a binary64 value, computed with the IEEE 754 specification
      of the Standard Library ([SpecFloat]), and [float(int)] raises
      OverflowError outside the binary64 range.  A float that is a time
      in seconds or a device property (clock readings, sleeps, the
      period, fps) is an exact rational [Q]: rounding errors of the order
      of 1e-16 s are left out.  The sizes passed to [vision_start] are
      taken to be in the binary64 range.
    - Python [str] is [string]; a character is a code point below 256.
    - The module-level dict [_CAM] is the record [cam_t]; its ["props"]
      entry is either the empty dict or the four-key dict built by
      [_open_cam], hence an [option props_t].
    - Everything outside the interpreter (OpenCV, the clock, the file
      system) is an environment [Env] of oracles.  An oracle answers from
      the whole history of external calls made so far, so a device, a
      clock or a disk may behave in any deterministic way.  Every external
      call is appended to the [trace] of the state, oldest first.
    - A tool body is a computation in the monad [M]: it threads the state
      and either returns a value or raises a Python exception; effects
      performed before a raise stay in the state.
    - [log.info] only writes diagnostics to stderr and is left out. *)

From Stdlib Require Import ZArith QArith Qround Qminmax List String Ascii Bool Lia Lqa.
From Stdlib Require Import DecimalString DecimalNat.
From Stdlib Require Strings.Byte.
From Stdlib Require Floats.SpecFloat.
Import ListNotations.
Local Open Scope string_scope.
Local Open Scope list_scope.
Local Open Scope Z_scope.

(* ------------------------------------------------------------------ *)
(** ** Python string helpers *)

Module PyStr.

(** [str.lower] on code points below 256: A-Z and the Latin-1 capitals
    (U+00C0..U+00DE except the multiplication sign U+00D7) move up by 32. *)
Definition lower_char (c : ascii) : ascii :=
  let n := nat_of_ascii c in
  if ((65 <=? n) && (n <=? 90))%nat then ascii_of_nat (n + 32)
  else if ((192 <=? n) && (n <=? 222) && negb (n =? 215))%nat
       then ascii_of_nat (n + 32)
  else c.

Fixpoint lower (s : string) : string :=
  match s with
  | EmptyString => EmptyString
  | String c r => String (lower_char c) (lower r)
  end.

(** [str.isspace] on code points below 256. *)
Definition isspace (c : ascii) : bool :=
  let n := nat_of_ascii c in
  (((9 <=? n) && (n <=? 13)) || ((28 <=? n) && (n <=? 32))
   || (n =? 133) || (n =? 160))%nat.

Fixpoint lstrip (s : string) : string :=
  match s with
  | EmptyString => EmptyString
  | String c r => if isspace c then lstrip r else s
  end.

(** Drops the trailing white space: a character is kept when it is not a
    space or when something is kept after it. *)
Fixpoint rstrip (s : string) : string :=
  match s with
  | EmptyString => EmptyString
  | String c r =>
      match rstrip r with
      | EmptyString => if isspace c then EmptyString else String c EmptyString
      | r' => String c r'
      end
  end.

Definition strip (s : string) : string := rstrip (lstrip s).

Fixpoint all_space (s : string) : bool :=
  match s with
  | EmptyString => true
  | String c r => isspace c && all_space r
  end.

Fixpoint zeros (k : nat) : string :=
  match k with
  | O => EmptyString
  | S k' => String "0" (zeros k')
  end.

(** [str(n)] for a non-negative int. *)
Definition dec (n : nat) : string := NilZero.string_of_uint (Nat.to_uint n).

(** [str(z)] for an int. *)
Definition str_int (z : Z) : string :=
  match z with
  | Zneg p => String "-" (dec (Pos.to_nat p))
  | _ => dec (Z.to_nat z)
  end.

(** [f"{z:0<w>d}"]: the decimal digits, padded with zeros between the
    sign and the digits up to a MINIMUM total width [w]; a numeral wider
    than [w] is printed in full. *)
Definition fmt_0d (w : nat) (z : Z) : string :=
  match z with
  | Zneg p =>
      let d := dec (Pos.to_nat p) in
      String "-" (zeros (w - 1 - String.length d) ++ d)%string
  | _ =>
      let d := dec (Z.to_nat z) in
      (zeros (w - String.length d) ++ d)%string
  end.

(** Reading a decimal numeral back. *)
Definition parse_dec (s : string) : option nat :=
  option_map Nat.of_uint (NilZero.uint_of_string s).

Fixpoint ends_with (suffix s : string) : bool :=
  if String.eqb s suffix then true
  else match s with
       | EmptyString => false
       | String _ r => ends_with suffix r
       end.

End PyStr.

(* ------------------------------------------------------------------ *)
(** ** Python numeric helpers *)

Module PyNum.

(** [float(z)] where the float is a time or a device property: the
    exact value. *)
Definition float (z : Z) : Q := inject_Z z.

(** [int(x)] for a float: truncation toward zero. *)
Definition int (x : Q) : Z :=
  if Qle_bool 0 x then Qfloor x else Qceiling x.

(** [round(x)] for a float: nearest integer, ties to the even one. *)
Definition round (x : Q) : Z :=
  let f := Qfloor x in
  match Qcompare (x - inject_Z f) (1 # 2) with
  | Lt => f
  | Gt => f + 1
  | Eq => if Z.even f then f else f + 1
  end.

(** [max(a, b)] on floats: Python returns the first maximal argument. *)
Definition fmax (a b : Q) : Q := if Qle_bool b a then a else b.

(** [x % 1] for a float: the fractional part, in [0, 1). *)
Definition mod1 (x : Q) : Q := x - inject_Z (Qfloor x).

(** [x or 0] for a float: [0] when [x] is falsy. *)
Definition or_zero (x : Q) : Q := if Qeq_bool x 0 then 0 else x.

(** [a > b] on floats. *)
Definition fgt (a b : Q) : bool := negb (Qle_bool a b).

(** A binary64 value. *)
Definition binary64 := SpecFloat.spec_float.

(** [float(z)] in binary64: the nearest double, ties to even; [None]
    stands for OverflowError (the nearest double would be infinite). *)
Definition float64 (z : Z) : option binary64 :=
  match SpecFloat.binary_normalize 53 1024 z 0 false with
  | SpecFloat.S754_infinity _ => None
  | SpecFloat.S754_nan => None
  | f => Some f
  end.

(** [a / b] in binary64, correctly rounded; [None] stands for
    ZeroDivisionError. *)
Definition truediv (a b : binary64) : option binary64 :=
  match b with
  | SpecFloat.S754_zero _ => None
  | _ => Some (SpecFloat.SFdiv 53 1024 a b)
  end.

(** The exact value of a double that is a number. *)
Definition value (f : binary64) : option Q :=
  match f with
  | SpecFloat.S754_zero _ => Some 0%Q
  | SpecFloat.S754_finite s m e =>
      Some ((if s then - inject_Z (Zpos m) else inject_Z (Zpos m))
            * Qpower 2 e)%Q
  | _ => None
  end.

(** [round(f)] for a double: the nearest integer to its exact value,
    ties to the even one; [None] when [f] is infinite or not a number
    (Python raises). *)
Definition round64 (f : binary64) : option Z := option_map round (value f).

End PyNum.

(* ------------------------------------------------------------------ *)
(** ** Data model *)

(** A [cv2.VideoCapture] object, identified by the environment. *)
Definition Handle := nat.

(** A frame returned by [cap.read()] (an ndarray), identified by the
    environment. *)
Definition Frame := nat.

Definition bytes := list Byte.byte.

(** The capture properties the program touches. *)
Inductive CapProp :=
| CAP_PROP_FRAME_WIDTH
| CAP_PROP_FRAME_HEIGHT
| CAP_PROP_FPS
| CAP_PROP_BUFFERSIZE.

(** The dict [actual] of [_open_cam]. *)
Record props_t := mkProps {
  p_width : Z;
  p_height : Z;
  p_fps : Q;
  p_backend : string
}.

(** The global [_CAM]; [None] in [props] is the empty dict. *)
Record cam_t := mkCam {
  cap : option Handle;
  index : option Z;
  props : option props_t
}.

(** [_CAM] as the module initialises it. *)
Definition CAM_init : cam_t := mkCam None None None.

(** Python exceptions the modelled code can meet. *)
Inductive exn :=
| ZeroDivisionError
| OverflowError (msg : string)
| ValueError (msg : string)
| OSError (msg : string).

(** One external call, with the answer it got. *)
Inductive Event :=
| EvVideoCapture (idx : Z) (api : option Z) (h : Handle)
| EvIsOpened (h : Handle) (b : bool)
| EvSet (h : Handle) (p : CapProp) (v : Q)
| EvGet (h : Handle) (p : CapProp) (v : Q)
| EvRead (h : Handle) (r : option Frame)
| EvRelease (h : Handle)
| EvPerfCounter (t : Q)
| EvSleep (d : Q)
| EvStrftime (s : string)
| EvTime (t : Q)
| EvMkdir (dir : string) (err : option string)
| EvWrite (dir name : string) (data : bytes) (err : option string).

Definition Trace := list Event.

(** The world outside the interpreter.  An answer may depend on the
    history of calls. *)
Record Env := mkEnv {
  (** [getattr(cv2, name, None)] for the backend constants *)
  cv2_getattr : string -> option Z;
  (** [cv2.VideoCapture(index[, api])]: the object created *)
  env_VideoCapture : Trace -> Z -> option Z -> Handle;
  (** [cap.isOpened()] *)
  env_isOpened : Trace -> Handle -> bool;
  (** [cap.get(prop)] *)
  env_get : Trace -> Handle -> CapProp -> Q;
  (** [cap.read()]: [Some frame] when [ok] holds and the frame is not
      [None] *)
  env_read : Trace -> Handle -> option Frame;
  (** [cv2.imencode(ext, frame)]: [Some buf.tobytes()] when [ok] holds *)
  env_imencode : string -> Frame -> option bytes;
  (** [time.perf_counter()] *)
  env_perf_counter : Trace -> Q;
  (** [time.strftime("%Y%m%d_%H%M%S")] *)
  env_strftime : Trace -> string;
  (** [time.time()] *)
  env_time : Trace -> Q;
  (** [str(Path(os.path.expanduser(save_dir)))] *)
  env_Path : string -> string;
  (** [str(out_dir / fname)] *)
  env_join : string -> string -> string;
  (** [out_dir.mkdir(parents=True, exist_ok=True)]: the error text when it
      raises *)
  env_mkdir : Trace -> string -> option string;
  (** [with open(fpath, "wb") as f: f.write(data)]: the error text when it
      raises *)
  env_write : Trace -> string -> string -> bytes -> option string
}.

(** The interpreter state: the global dict and the history. *)
Record St := mkSt {
  CAM : cam_t;
  trace : Trace
}.

(* ------------------------------------------------------------------ *)
(** ** The monad of tool bodies *)

Inductive res (A : Type) :=
| Returned (a : A)
| Raised (e : exn).
Arguments Returned {A} a.
Arguments Raised {A} e.

Definition M (A : Type) : Type := St -> res A * St.

Definition ret {A} (a : A) : M A := fun st => (Returned a, st).

Definition bind {A B} (m : M A) (k : A -> M B) : M B :=
  fun st =>
    match m st with
    | (Returned a, st') => k a st'
    | (Raised e, st') => (Raised e, st')
    end.

Definition raise {A} (e : exn) : M A := fun st => (Raised e, st).

(** [try: m  except Exception as e: h e] *)
Definition try_except {A} (m : M A) (h : exn -> M A) : M A :=
  fun st =>
    match m st with
    | (Returned a, st') => (Returned a, st')
    | (Raised e, st') => h e st'
    end.

Declare Scope py_scope.
Delimit Scope py_scope with py.
Notation "x <- m ;; k" := (bind m (fun x => k))
  (at level 61, m at next level, right associativity) : py_scope.
Notation "m ;;; k" := (bind m (fun _ => k))
  (at level 61, right associativity) : py_scope.
Local Open Scope py_scope.

Definition get_CAM : M cam_t := fun st => (Returned (CAM st), st).
Definition set_CAM (c : cam_t) : M unit :=
  fun st => (Returned tt, mkSt c (trace st)).

(** Appends an external call to the history. *)
Definition emit (e : Event) : M unit :=
  fun st => (Returned tt, mkSt (CAM st) (trace st ++ [e])).

(** Asks an oracle about the history so far. *)
Definition ask {A} (f : Trace -> A) : M A :=
  fun st => (Returned (f (trace st)), st).

(** [str(e)] *)
Definition str_exn (e : exn) : string :=
  match e with
  | ZeroDivisionError => "float division by zero"
  | OverflowError msg => msg
  | ValueError msg => msg
  | OSError msg => msg
  end.

(** A computation that only evaluates an expression. *)
Definition lift {A} (r : res A) : M A := fun st => (r, st).

(** [float(z)], raising as Python does. *)
Definition py_float (z : Z) : res PyNum.binary64 :=
  match PyNum.float64 z with
  | Some f => Returned f
  | None => Raised (OverflowError "int too large to convert to float")
  end.

(* ------------------------------------------------------------------ *)
(** ** Values returned by the tools *)

(** The two shapes of the triple returned by [_grab_frame]:
    [(False, None, msg)] and [(True, frame, "ok")]. *)
Inductive grab_t :=
| GrabFail (msg : string)
| GrabOk (frame : Frame).

(** [{"ok", "message", "props", "index"}] *)
Record start_result := mkStart {
  s_ok : bool;
  s_message : string;
  s_props : option props_t;
  s_index : option Z
}.

(** [{"open", "index", "props"}] *)
Record status_result := mkStatus {
  st_open : bool;
  st_index : option Z;
  st_props : option props_t
}.

(** [{"ok": True, "path", "mime", "width", "height"}] or
    [{"ok": False, "error"}] *)
Inductive capture_result :=
| CaptureOk (path mime : string) (width height : Z)
| CaptureErr (error : string).

(** [{"ok": True, "paths", "mime", "width", "height", "n", "period_ms",
    "duration_ms", "save_dir"}] or [{"ok": False, "error"[, "paths"]}];
    the ["paths"] key is absent from the "Camera not open" result. *)
Inductive burst_result :=
| BurstOk (paths : list string) (mime : string) (width height : Z)
          (n : Z) (period_ms duration_ms : Z) (save_dir : string)
| BurstErr (error : string) (paths : option (list string)).


(** [dict.get(key, None)] on a dict given by its items. *)
Fixpoint dict_get {V} (d : list (string * option V)) (key : string) : option V :=
  match d with
  | [] => None
  | (k, v) :: r => if String.eqb k key then v else dict_get r key
  end.

(** [props.get("width", 0)] and [props.get("height", 0)] *)
Definition props_width (p : option props_t) : Z :=
  match p with Some a => p_width a | None => 0 end.
Definition props_height (p : option props_t) : Z :=
  match p with Some a => p_height a | None => 0 end.

(* ------------------------------------------------------------------ *)
(** ** The program *)

Section Program.

Variable E : Env.

(** *** External calls *)

Definition cv2_VideoCapture (idx : Z) (api : option Z) : M Handle :=
  h <- ask (fun tr => env_VideoCapture E tr idx api) ;;
  emit (EvVideoCapture idx api h) ;;;
  ret h.

Definition cap_isOpened (h : Handle) : M bool :=
  b <- ask (fun tr => env_isOpened E tr h) ;;
  emit (EvIsOpened h b) ;;;
  ret b.

Definition cap_set (h : Handle) (p : CapProp) (v : Q) : M unit :=
  emit (EvSet h p v).

Definition cap_get (h : Handle) (p : CapProp) : M Q :=
  v <- ask (fun tr => env_get E tr h p) ;;
  emit (EvGet h p v) ;;;
  ret v.

Definition cap_read (h : Handle) : M (option Frame) :=
  r <- ask (fun tr => env_read E tr h) ;;
  emit (EvRead h r) ;;;
  ret r.

Definition cap_release (h : Handle) : M unit := emit (EvRelease h).

Definition time_perf_counter : M Q :=
  t <- ask (env_perf_counter E) ;;
  emit (EvPerfCounter t) ;;;
  ret t.

Definition time_sleep (d : Q) : M unit := emit (EvSleep d).

Definition time_strftime : M string :=
  s <- ask (env_strftime E) ;;
  emit (EvStrftime s) ;;;
  ret s.

Definition time_time : M Q :=
  t <- ask (env_time E) ;;
  emit (EvTime t) ;;;
  ret t.

Definition path_mkdir (dir : string) : M unit :=
  err <- ask (fun tr => env_mkdir E tr dir) ;;
  emit (EvMkdir dir err) ;;;
  match err with
  | None => ret tt
  | Some msg => raise (OSError msg)
  end.

Definition write_file (dir name : string) (data : bytes) : M unit :=
  err <- ask (fun tr => env_write E tr dir name data) ;;
  emit (EvWrite dir name data err) ;;;
  match err with
  | None => ret tt
  | Some msg => raise (OSError msg)
  end.

(** *** Module-level code *)

Definition _BACKENDS : list (string * option Z) :=
  [ ("auto", None);
    ("avfoundation", cv2_getattr E "CAP_AVFOUNDATION");
    ("msmf", cv2_getattr E "CAP_MSMF");
    ("dshow", cv2_getattr E "CAP_DSHOW");
    ("v4l2", cv2_getattr E "CAP_V4L2") ].

(** [backend.lower().strip() if backend else "auto"] *)
Definition backend_key (backend : string) : string :=
  match backend with
  | EmptyString => "auto"
  | _ => PyStr.strip (PyStr.lower backend)
  end.

Definition open_failed_msg (camera_index : Z) (be : string) : string :=
  ("Failed to open camera index " ++ PyStr.str_int camera_index
     ++ " (backend=" ++ be ++ ")")%string.

(** [_open_cam].  One [VideoCapture] event stands for both call shapes:
    [api_pref = None] is [cv2.VideoCapture(camera_index)].  The test
    [not cap] is false for the object just created, so readiness is what
    [cap.isOpened()] answers. *)
Definition _open_cam (camera_index width height fps : Z) (backend : string)
  : M (bool * string) :=
  c <- get_CAM ;;
  match cap c with
  | Some _ => ret (true, "Camera already open")
  | None =>
      let be := backend_key backend in
      let api_pref := dict_get _BACKENDS be in
      h <- cv2_VideoCapture camera_index api_pref ;;
      opened <- cap_isOpened h ;;
      if negb opened then ret (false, open_failed_msg camera_index be)
      else
        (if 0 <? width
         then cap_set h CAP_PROP_FRAME_WIDTH (PyNum.float width)
         else ret tt) ;;;
        (if 0 <? height
         then cap_set h CAP_PROP_FRAME_HEIGHT (PyNum.float height)
         else ret tt) ;;;
        (if 0 <? fps
         then cap_set h CAP_PROP_FPS (PyNum.float fps)
         else ret tt) ;;;
        w <- cap_get h CAP_PROP_FRAME_WIDTH ;;
        hh <- cap_get h CAP_PROP_FRAME_HEIGHT ;;
        f <- cap_get h CAP_PROP_FPS ;;
        let actual :=
          mkProps (PyNum.int (PyNum.or_zero w)) (PyNum.int (PyNum.or_zero hh))
                  (PyNum.or_zero f) be in
        set_CAM (mkCam (Some h) (Some camera_index) (Some actual)) ;;;
        ret (true, "Camera opened")
  end.

Definition _close_cam : M unit :=
  c <- get_CAM ;;
  match cap c with
  | Some h => try_except (cap_release h) (fun _ => ret tt)
  | None => ret tt
  end ;;;
  set_CAM (mkCam None None None).

Definition _grab_frame : M grab_t :=
  c <- get_CAM ;;
  match cap c with
  | None => ret (GrabFail "Camera not open")
  | Some h =>
      opened <- cap_isOpened h ;;
      if negb opened then ret (GrabFail "Camera not open")
      else
        r <- cap_read h ;;
        match r with
        | None => ret (GrabFail "Failed to read frame")
        | Some frame => ret (GrabOk frame)
        end
  end.

(** [".jpg" if fmt.lower() == "jpg" else ".png"] *)
Definition ext_of (fmt : string) : string :=
  if String.eqb (PyStr.lower fmt) "jpg" then ".jpg" else ".png".

(** ["image/jpeg" if ext == ".jpg" else "image/png"] *)
Definition mime_of (ext : string) : string :=
  if String.eqb ext ".jpg" then "image/jpeg" else "image/png".

Definition _encode_image (frame : Frame) (fmt : string)
  : bool * bytes * string :=
  let ext := ext_of fmt in
  match env_imencode E ext frame with
  | None => (false, [], "cv2.imencode failed")
  | Some buf => (true, buf, ext)
  end.

(** [int((time.time() % 1) * 1000)] *)
Definition millis (t : Q) : Z := PyNum.int (PyNum.mod1 t * 1000).

Definition _timestamp_name (prefix ext : string) : M string :=
  ts <- time_strftime ;;
  t <- time_time ;;
  let ms := millis t in
  ret (prefix ++ "_" ++ ts ++ "_" ++ PyStr.fmt_0d 3 ms ++ ext)%string.

(** *** Tools *)

Definition vision_start (camera_index width height fps : Z) (backend : string)
  : M start_result :=
  r <- _open_cam camera_index width height fps backend ;;
  c <- get_CAM ;;
  ret (mkStart (fst r) (snd r) (props c) (index c)).

Definition vision_status : M status_result :=
  c <- get_CAM ;;
  match cap c with
  | None => ret (mkStatus false (index c) (props c))
  | Some h =>
      opened <- cap_isOpened h ;;
      ret (mkStatus opened (index c) (props c))
  end.

Definition vision_capture (save_dir format : string) : M capture_result :=
  g <- _grab_frame ;;
  match g with
  | GrabFail msg => ret (CaptureErr msg)
  | GrabOk frame =>
      let '(ok2, img_bytes, ext) := _encode_image frame format in
      if negb ok2 then ret (CaptureErr ext)
      else
        let out_dir := env_Path E save_dir in
        path_mkdir out_dir ;;;
        fname <- _timestamp_name "frame" ext ;;
        let fpath := env_join E out_dir fname in
        early <- try_except
                   (write_file out_dir fname img_bytes ;;; ret None)
                   (fun e =>
                      ret (Some (CaptureErr
                                   ("Failed to write file: " ++ str_exn e)%string))) ;;
        match early with
        | Some result => ret result
        | None =>
            c <- get_CAM ;;
            ret (CaptureOk fpath (mime_of ext)
                           (props_width (props c)) (props_height (props c)))
        end
  end.

(** [max(1, int(round(float(duration_ms) / float(period_ms))))]: the two
    conversions, left to right, then the division and the rounding, all
    in binary64. *)
Definition duration_count (period_ms duration_ms : Z) : res Z :=
  match py_float duration_ms with
  | Raised e => Raised e
  | Returned a =>
      match py_float period_ms with
      | Raised e => Raised e
      | Returned b =>
          match PyNum.truediv a b with
          | None => Raised ZeroDivisionError
          | Some q =>
              match PyNum.round64 q with
              | Some r => Returned (Z.max 1 r)
              | None =>
                  match q with
                  | SpecFloat.S754_nan =>
                      Raised (ValueError "cannot convert float NaN to integer")
                  | _ =>
                      Raised (OverflowError
                                "cannot convert float infinity to integer")
                  end
              end
          end
      end
  end.

(** [n = max(1, int(round(float(duration_ms) / float(period_ms))))] when
    [duration_ms and duration_ms > 0], else [n] as supplied. *)
Definition burst_count (n period_ms duration_ms : Z) : M Z :=
  if 0 <? duration_ms then lift (duration_count period_ms duration_ms)
  else ret n.

(** [for _ in range(k): cap.read()] *)
Fixpoint warmup_reads (k : nat) (h : Handle) : M unit :=
  match k with
  | O => ret tt
  | S k' => cap_read h ;;; warmup_reads k' h
  end.

(** The value of [max(0.0, float(period_ms) / 1000.0)], a time in
    seconds. *)
Definition period_seconds (period_ms : Z) : Q :=
  PyNum.fmax 0 (PyNum.float period_ms / 1000).

(** [period_s = max(0.0, float(period_ms) / 1000.0)]: the conversion
    raises when [period_ms] is outside the binary64 range. *)
Definition burst_period (period_ms : Z) : M Q :=
  lift (py_float period_ms) ;;;
  ret (period_seconds period_ms).

(** [target = t0 + i * period_s] *)
Definition burst_target (t0 period_s : Q) (i : nat) : Q :=
  t0 + inject_Z (Z.of_nat i) * period_s.

(** [f"asl_{ts}_{ms:03d}_{i:02d}{ext}"] *)
Definition burst_name (ts : string) (ms : Z) (i : nat) (ext : string) : string :=
  ("asl_" ++ ts ++ "_" ++ PyStr.fmt_0d 3 ms ++ "_"
     ++ PyStr.fmt_0d 2 (Z.of_nat i) ++ ext)%string.

(** The body of [for i in range(...)], run over the indices still to do.
    [inl r] is an early [return r]; [inr paths] is the list after the
    last iteration. *)
Fixpoint burst_loop (format out_dir ext : string) (t0 period_s : Q)
    (todo : list nat) (paths : list string)
  : M (burst_result + list string) :=
  match todo with
  | [] => ret (inr paths)
  | i :: rest =>
      let target := burst_target t0 period_s i in
      now <- time_perf_counter ;;
      (if PyNum.fgt target now then time_sleep (target - now) else ret tt) ;;;
      g <- _grab_frame ;;
      match g with
      | GrabFail msg =>
          ret (inl (BurstErr ("Failed to read frame: " ++ msg)%string
                             (Some paths)))
      | GrabOk frame =>
          let '(ok2, img_bytes, _) := _encode_image frame format in
          if negb ok2
          then ret (inl (BurstErr "cv2.imencode failed" (Some paths)))
          else
            ts <- time_strftime ;;
            t <- time_time ;;
            let fname := burst_name ts (millis t) i ext in
            write_file out_dir fname img_bytes ;;;
            burst_loop format out_dir ext t0 period_s rest
                       (paths ++ [env_join E out_dir fname])
      end
  end.

Definition vision_burst (n period_ms : Z) (save_dir format : string)
    (warmup duration_ms : Z) : M burst_result :=
  c <- get_CAM ;;
  match cap c with
  | None => ret (BurstErr "Camera not open" None)
  | Some h =>
      opened <- cap_isOpened h ;;
      if negb opened then ret (BurstErr "Camera not open" None)
      else
        n' <- burst_count n period_ms duration_ms ;;
        try_except (cap_set h CAP_PROP_BUFFERSIZE 1) (fun _ => ret tt) ;;;
        warmup_reads (Z.to_nat (Z.max 0 warmup)) h ;;;
        let out_dir := env_Path E save_dir in
        path_mkdir out_dir ;;;
        let ext := ext_of format in
        let mime := mime_of ext in
        c' <- get_CAM ;;
        let width := props_width (props c') in
        let height := props_height (props c') in
        period_s <- burst_period period_ms ;;
        t0 <- time_perf_counter ;;
        r <- burst_loop format out_dir ext t0 period_s
                        (seq 0 (Z.to_nat (Z.max 1 n'))) [] ;;
        match r with
        | inl early => ret early
        | inr paths =>
            ret (BurstOk paths mime width height
                         (Z.of_nat (List.length paths))
                         period_ms duration_ms out_dir)
        end
  end.

Definition vision_stop : M bool :=
  _close_cam ;;;
  ret true.

End Program.

(* ------------------------------------------------------------------ *)
(** ** Observations on a history *)

(** The files written with success, as (directory, name), oldest first. *)
Fixpoint files_written (tr : Trace) : list (string * string) :=
  match tr with
  | [] => []
  | EvWrite dir name _ None :: r => (dir, name) :: files_written r
  | _ :: r => files_written r
  end.

(** Every file-system call (directory creation or file write, whatever
    its outcome). *)
Fixpoint fs_calls (tr : Trace) : list Event :=
  match tr with
  | [] => []
  | EvMkdir dir err :: r => EvMkdir dir err :: fs_calls r
  | EvWrite dir name data err :: r => EvWrite dir name data err :: fs_calls r
  | _ :: r => fs_calls r
  end.

(** The outcome of every attempt to grab a frame: a device that is not
    ready counts as a failed grab, a read yields what [cap.read] gave. *)
Fixpoint grabs (tr : Trace) : list (option Frame) :=
  match tr with
  | [] => []
  | EvIsOpened _ false :: r => None :: grabs r
  | EvRead _ o :: r => o :: grabs r
  | _ :: r => grabs r
  end.

(** The events after the first reading of [time.perf_counter], with that
    reading; [None] when the clock was never read. *)
Fixpoint after_t0 (tr : Trace) : option (Q * Trace) :=
  match tr with
  | [] => None
  | EvPerfCounter t :: r => Some (t, r)
  | _ :: r => after_t0 r
  end.

Definition is_timing (e : Event) : bool :=
  match e with
  | EvPerfCounter _ | EvSleep _ => true
  | _ => false
  end.

(** Where a checker of the burst schedule stands inside an iteration. *)
Inductive phase :=
| AwaitNow             (* the iteration has not read the clock yet *)
| AfterNow (now : Q)   (* the clock was just read *)
| InFrame.             (* the wait is over: grab, encode, write *)

(** [schedule_ok target ph i tr]: the events [tr] are iterations [i],
    [i+1], ... of a loop in which every iteration first reads the clock,
    then sleeps [target i - now] exactly when [target i] is later than
    [now] and does not sleep otherwise, and then makes no further timing
    call up to the next iteration. *)
Fixpoint schedule_ok (target : nat -> Q) (ph : phase) (i : nat) (tr : Trace)
  : bool :=
  match tr with
  | [] => match ph with
          | AfterNow now => negb (PyNum.fgt (target i) now)
          | _ => true
          end
  | e :: r =>
      match ph with
      | AwaitNow =>
          match e with
          | EvPerfCounter now => schedule_ok target (AfterNow now) i r
          | _ => false
          end
      | AfterNow now =>
          if PyNum.fgt (target i) now then
            match e with
            | EvSleep d => Qeq_bool d (target i - now)
                           && schedule_ok target InFrame i r
            | _ => false
            end
          else
            match e with
            | EvPerfCounter now' => schedule_ok target (AfterNow now') (S i) r
            | EvSleep _ => false
            | _ => schedule_ok target InFrame i r
            end
      | InFrame =>
          match e with
          | EvPerfCounter now' => schedule_ok target (AfterNow now') (S i) r
          | EvSleep _ => false
          | _ => schedule_ok target InFrame i r
          end
      end
  end.

(** The target instant of frame [i] as the schedule is specified:
    [t0 + i * (period_ms / 1000)] seconds. *)
Definition scheduled_target (t0 : Q) (period_ms : Z) (i : nat) : Q :=
t0 + inject_Z (Z.of_nat i) * (inject_Z period_ms / 1000).


(** A grab is good when it delivered a frame that the encoder accepts. *)
Definition frame_good (E : Env) (format : string) (o : option Frame) : bool :=
match o with
| Some f =>
    match env_imencode E (ext_of format) f with
    | Some _ => true
    | None => false
    end
| None => false
end.

(** The verdict on every grab of a history, oldest first. *)
Definition verdicts (E : Env) (format : string) (tr : Trace) : list bool :=
map (frame_good E format) (grabs tr).

Definition is_clock_read (e : Event) : bool :=
match e with
| EvPerfCounter _ => true
| _ => false
end.

(** The number of readings of [time.perf_counter]. *)
Definition clock_reads (tr : Trace) : nat :=
List.length (filter is_clock_read tr).

Definition no_timing (tr : Trace) : bool :=
forallb (fun e => negb (is_timing e)) tr.

(** The burst ended without reaching the loop. *)
Definition stopped_early (r : res burst_result) : Prop :=
r = Returned (BurstErr "Camera not open" None)
\/ r = Raised ZeroDivisionError
\/ (exists msg, r = Raised (OverflowError msg))
\/ (exists msg, r = Raised (ValueError msg))
\/ exists msg, r = Raised (OSError msg).

(** The first file-system call of a history that failed, if any. *)
Fixpoint fs_failure (tr : Trace) : option Event :=
match tr with
| [] => None
| EvMkdir dir (Some msg) :: _ => Some (EvMkdir dir (Some msg))
| EvWrite dir name data (Some msg) :: _ => Some (EvWrite dir name data (Some msg))
| _ :: r => fs_failure r
end.

(** The error text of a failed file-system call. *)
Definition failure_text (e : Event) : string :=
match e with
| EvMkdir _ (Some msg) => msg
| EvWrite _ _ _ (Some msg) => msg
| _ => ""
end.

(** The characters of a file name between its last underscore and its
    extension: the index field of a burst file. *)
Fixpoint contains (c : ascii) (s : string) : bool :=
match s with
| EmptyString => false
| String a r => Ascii.eqb a c || contains c r
end.

Fixpoint after_last (c : ascii) (s : string) : string :=
match s with
| EmptyString => EmptyString
| String a r =>
    if contains c r then after_last c r
    else if Ascii.eqb a c then r else s
end.



(** The names that select a capture API. *)
Definition api_backends : list string :=
["avfoundation"; "msmf"; "dshow"; "v4l2"].

(** The properties [p] with another backend name recorded. *)
Definition relabel (be : string) (p : props_t) : props_t :=
mkProps (p_width p) (p_height p) (p_fps p) be.

(* ------------------------------------------------------------------ *)
(** ** The runs of the tools, as relations on histories *)

(** The reads of the warm-up loop after the history [tr]. *)
Fixpoint warmup_events (E : Env) (h : Handle) (tr : Trace) (k : nat) : Trace :=
  match k with
  | O => []
  | S k' =>
      let e := EvRead h (env_read E tr h) in
      e :: warmup_events E h (tr ++ [e]) k'
  end.

(** The count a burst works with, or the exception that computing it
    raises: the result of [burst_count], which does not touch the state. *)
Definition effective_count (n period_ms duration_ms : Z) : res Z :=
  if 0 <? duration_ms then duration_count period_ms duration_ms
  else Returned n.

(** The number of iterations of the loop, [max(1, int(n))] for the count
    [n] just computed (none when computing it raises). *)
Definition iterations (n period_ms duration_ms : Z) : nat :=
  match effective_count n period_ms duration_ms with
  | Returned c => Z.to_nat (Z.max 1 c)
  | Raised _ => O
  end.

(** The effective frame count as it is specified: with [duration_ms > 0]
    it is [max(1, round(duration_ms / period_ms))], the division and the
    rounding being those of binary64 floats, whatever count was supplied;
    otherwise it is the supplied count.  [None] where the quotient is not
    defined. *)
Definition specified_count (n period_ms duration_ms : Z) : option Z :=
  if 0 <? duration_ms then
    match PyNum.float64 duration_ms, PyNum.float64 period_ms with
    | Some a, Some b =>
        match PyNum.truediv a b with
        | Some q => option_map (Z.max 1) (PyNum.round64 q)
        | None => None
        end
    | _, _ => None
    end
  else Some n.

(** ["frame_<ts>_<ms:03d><ext>"], the name built by [_timestamp_name]. *)
Definition frame_name (ts : string) (ms : Z) (ext : string) : string :=
("frame" ++ "_" ++ ts ++ "_" ++ PyStr.fmt_0d 3 ms ++ ext)%string.

(** The file written for the index [i]. *)
Definition named (format : string) (i : nat) (nm : string) : Prop :=
exists ts t, nm = burst_name ts (millis t) i (ext_of format).

Section LoopRel.

Variable E : Env.
Variable h : Handle.
Variables format out_dir : string.
Variables t0 period_s : Q.

Let ext := ext_of format.

(** What an iteration does about time when the clock answers [now]. *)
Definition timing_events (i : nat) (now : Q) : Trace :=
  EvPerfCounter now
    :: (if PyNum.fgt (burst_target t0 period_s i) now
        then [EvSleep (burst_target t0 period_s i - now)]
        else []).

(** [LoopRun tr todo paths ev r]: started after the history [tr] with the
    indices [todo] left and the list [paths] built, the loop makes the
    external calls [ev] and ends in [r]. *)
Inductive LoopRun : Trace -> list nat -> list string -> Trace
                    -> res (burst_result + list string) -> Prop :=
| LoopDone tr paths :
    LoopRun tr [] paths [] (Returned (inr paths))
| LoopNotReady tr i rest paths tm :
    tm = timing_events i (env_perf_counter E tr) ->
    env_isOpened E (tr ++ tm) h = false ->
    LoopRun tr (i :: rest) paths (tm ++ [EvIsOpened h false])
            (Returned (inl (BurstErr "Failed to read frame: Camera not open"
                                     (Some paths))))
| LoopNoFrame tr i rest paths tm :
    tm = timing_events i (env_perf_counter E tr) ->
    env_isOpened E (tr ++ tm) h = true ->
    env_read E (tr ++ tm ++ [EvIsOpened h true]) h = None ->
    LoopRun tr (i :: rest) paths
            (tm ++ [EvIsOpened h true; EvRead h None])
            (Returned (inl (BurstErr "Failed to read frame: Failed to read frame"
                                     (Some paths))))
| LoopNoEncode tr i rest paths tm frame :
    tm = timing_events i (env_perf_counter E tr) ->
    env_isOpened E (tr ++ tm) h = true ->
    env_read E (tr ++ tm ++ [EvIsOpened h true]) h = Some frame ->
    env_imencode E ext frame = None ->
    LoopRun tr (i :: rest) paths
            (tm ++ [EvIsOpened h true; EvRead h (Some frame)])
            (Returned (inl (BurstErr "cv2.imencode failed" (Some paths))))
| LoopWriteRaises tr i rest paths tm frame data ts t msg :
    tm = timing_events i (env_perf_counter E tr) ->
    env_isOpened E (tr ++ tm) h = true ->
    env_read E (tr ++ tm ++ [EvIsOpened h true]) h = Some frame ->
    env_imencode E ext frame = Some data ->
    env_write E (tr ++ tm ++ [EvIsOpened h true; EvRead h (Some frame);
                              EvStrftime ts; EvTime t])
              out_dir (burst_name ts (millis t) i ext) data = Some msg ->
    LoopRun tr (i :: rest) paths
            (tm ++ [EvIsOpened h true; EvRead h (Some frame);
                    EvStrftime ts; EvTime t;
                    EvWrite out_dir (burst_name ts (millis t) i ext) data
                            (Some msg)])
            (Raised (OSError msg))
| LoopNext tr i rest paths tm frame data ts t chunk ev r :
    tm = timing_events i (env_perf_counter E tr) ->
    env_isOpened E (tr ++ tm) h = true ->
    env_read E (tr ++ tm ++ [EvIsOpened h true]) h = Some frame ->
    env_imencode E ext frame = Some data ->
    env_write E (tr ++ tm ++ [EvIsOpened h true; EvRead h (Some frame);
                              EvStrftime ts; EvTime t])
              out_dir (burst_name ts (millis t) i ext) data = None ->
    chunk = tm ++ [EvIsOpened h true; EvRead h (Some frame);
                   EvStrftime ts; EvTime t;
                   EvWrite out_dir (burst_name ts (millis t) i ext) data None] ->
    LoopRun (tr ++ chunk) rest
            (paths ++ [env_join E out_dir (burst_name ts (millis t) i ext)])
            ev r ->
    LoopRun tr (i :: rest) paths (chunk ++ ev) r.

End LoopRel.

Section BurstRel.

Variable E : Env.
Variables n period_ms : Z.
Variables save_dir format : string.
Variables warmup duration_ms : Z.

Let out_dir := env_Path E save_dir.
Let ext := ext_of format.

(** What [vision_burst] returns after the loop ended in [r]. *)
Definition burst_finish (c : cam_t) (r : res (burst_result + list string))
  : res burst_result :=
  match r with
  | Returned (inl early) => Returned early
  | Returned (inr paths) =>
      Returned (BurstOk paths (mime_of ext)
                        (props_width (props c)) (props_height (props c))
                        (Z.of_nat (List.length paths))
                        period_ms duration_ms out_dir)
  | Raised e => Raised e
  end.

(** The calls made before the target directory is created. *)
Definition prelude_reads (h : Handle) (tr : Trace) : Trace :=
  [EvIsOpened h true; EvSet h CAP_PROP_BUFFERSIZE 1]
    ++ warmup_events E h
         (tr ++ [EvIsOpened h true; EvSet h CAP_PROP_BUFFERSIZE 1])
         (Z.to_nat (Z.max 0 warmup)).

(** The calls made before the clock is first read. *)
Definition prelude (h : Handle) (tr : Trace) (mk : option string) : Trace :=
  prelude_reads h tr ++ [EvMkdir out_dir mk].

(** [BurstRun st new r]: started in [st], [vision_burst] makes the
    external calls [new] and ends in [r]. *)
Inductive BurstRun (st : St) : Trace -> res burst_result -> Prop :=
| BurstClosed :
    cap (CAM st) = None ->
    BurstRun st [] (Returned (BurstErr "Camera not open" None))
| BurstNotReady h :
    cap (CAM st) = Some h ->
    env_isOpened E (trace st) h = false ->
    BurstRun st [EvIsOpened h false]
             (Returned (BurstErr "Camera not open" None))
| BurstCountRaises h e :
    cap (CAM st) = Some h ->
    env_isOpened E (trace st) h = true ->
    effective_count n period_ms duration_ms = Raised e ->
    BurstRun st [EvIsOpened h true] (Raised e)
| BurstMkdirRaises h msg :
    cap (CAM st) = Some h ->
    env_isOpened E (trace st) h = true ->
    (exists c, effective_count n period_ms duration_ms = Returned c) ->
    env_mkdir E (trace st ++ prelude_reads h (trace st)) out_dir = Some msg ->
    BurstRun st (prelude h (trace st) (Some msg)) (Raised (OSError msg))
| BurstPeriodRaises h e :
    cap (CAM st) = Some h ->
    env_isOpened E (trace st) h = true ->
    (exists c, effective_count n period_ms duration_ms = Returned c) ->
    env_mkdir E (trace st ++ prelude_reads h (trace st)) out_dir = None ->
    py_float period_ms = Raised e ->
    BurstRun st (prelude h (trace st) None) (Raised e)
| BurstLooped h t0 ev r :
    cap (CAM st) = Some h ->
    env_isOpened E (trace st) h = true ->
    (exists c, effective_count n period_ms duration_ms = Returned c
               /\ exists f, py_float period_ms = Returned f) ->
    env_mkdir E (trace st ++ prelude_reads h (trace st)) out_dir = None ->
    t0 = env_perf_counter E (trace st ++ prelude h (trace st) None) ->
    LoopRun E h format out_dir t0 (period_seconds period_ms)
            (trace st ++ prelude h (trace st) None ++ [EvPerfCounter t0])
            (seq 0 (iterations n period_ms duration_ms)) [] ev r ->
    BurstRun st (prelude h (trace st) None ++ EvPerfCounter t0 :: ev)
             (burst_finish (CAM st) r).

End BurstRel.

Section CaptureRel.

Variable E : Env.
Variables save_dir format : string.

Let out_dir := env_Path E save_dir.
Let ext := ext_of format.

(** [CaptureRun st new r]: started in [st], [vision_capture] makes the
    external calls [new] and ends in [r]. *)
Inductive CaptureRun (st : St) : Trace -> res capture_result -> Prop :=
| CaptureClosed :
    cap (CAM st) = None ->
    CaptureRun st [] (Returned (CaptureErr "Camera not open"))
| CaptureNotReady h :
    cap (CAM st) = Some h ->
    env_isOpened E (trace st) h = false ->
    CaptureRun st [EvIsOpened h false] (Returned (CaptureErr "Camera not open"))
| CaptureNoFrame h :
    cap (CAM st) = Some h ->
    env_isOpened E (trace st) h = true ->
    env_read E (trace st ++ [EvIsOpened h true]) h = None ->
    CaptureRun st [EvIsOpened h true; EvRead h None]
               (Returned (CaptureErr "Failed to read frame"))
| CaptureNoEncode h frame :
    cap (CAM st) = Some h ->
    env_isOpened E (trace st) h = true ->
    env_read E (trace st ++ [EvIsOpened h true]) h = Some frame ->
    env_imencode E ext frame = None ->
    CaptureRun st [EvIsOpened h true; EvRead h (Some frame)]
               (Returned (CaptureErr "cv2.imencode failed"))
| CaptureMkdirRaises h frame data msg :
    cap (CAM st) = Some h ->
    env_isOpened E (trace st) h = true ->
    env_read E (trace st ++ [EvIsOpened h true]) h = Some frame ->
    env_imencode E ext frame = Some data ->
    env_mkdir E (trace st ++ [EvIsOpened h true; EvRead h (Some frame)]) out_dir
    = Some msg ->
    CaptureRun st [EvIsOpened h true; EvRead h (Some frame);
                   EvMkdir out_dir (Some msg)]
               (Raised (OSError msg))
| CaptureWriteFails h frame data ts t msg :
    cap (CAM st) = Some h ->
    env_isOpened E (trace st) h = true ->
    env_read E (trace st ++ [EvIsOpened h true]) h = Some frame ->
    env_imencode E ext frame = Some data ->
    env_mkdir E (trace st ++ [EvIsOpened h true; EvRead h (Some frame)]) out_dir
    = None ->
    env_write E (trace st ++ [EvIsOpened h true; EvRead h (Some frame);
                              EvMkdir out_dir None; EvStrftime ts; EvTime t])
              out_dir (frame_name ts (millis t) ext) data = Some msg ->
    CaptureRun st [EvIsOpened h true; EvRead h (Some frame);
                   EvMkdir out_dir None; EvStrftime ts; EvTime t;
                   EvWrite out_dir (frame_name ts (millis t) ext) data (Some msg)]
               (Returned (CaptureErr ("Failed to write file: " ++ msg)%string))
| CaptureWritten h frame data ts t :
    cap (CAM st) = Some h ->
    env_isOpened E (trace st) h = true ->
    env_read E (trace st ++ [EvIsOpened h true]) h = Some frame ->
    env_imencode E ext frame = Some data ->
    env_mkdir E (trace st ++ [EvIsOpened h true; EvRead h (Some frame)]) out_dir
    = None ->
    env_write E (trace st ++ [EvIsOpened h true; EvRead h (Some frame);
                              EvMkdir out_dir None; EvStrftime ts; EvTime t])
              out_dir (frame_name ts (millis t) ext) data = None ->
    CaptureRun st [EvIsOpened h true; EvRead h (Some frame);
                   EvMkdir out_dir None; EvStrftime ts; EvTime t;
                   EvWrite out_dir (frame_name ts (millis t) ext) data None]
               (Returned (CaptureOk (env_join E out_dir
                                              (frame_name ts (millis t) ext))
                                    (mime_of ext)
                                    (props_width (props (CAM st)))
                                    (props_height (props (CAM st))))).

End CaptureRel.

(* ------------------------------------------------------------------ *)
(** ** The camera probe *)

(** An entry of the list returned by [list_cameras]:
    [{"index", "open": True, "width", "height", "fps"}],
    [{"index", "open": False}] or [{"index", "open": False, "error"}]. *)
Inductive probe_t :=
| ProbeOpen (index : Z) (width height : Z) (fps : Q)
| ProbeClosed (index : Z)
| ProbeError (index : Z) (error : string).

Definition probe_index (p : probe_t) : Z :=
match p with
| ProbeOpen i _ _ _ => i
| ProbeClosed i => i
| ProbeError i _ => i
end.

Definition probe_open (p : probe_t) : bool :=
match p with
| ProbeOpen _ _ _ _ => true
| _ => false
end.

Section Probe.

Variable E : Env.

(** The body of the [try] of one iteration; the handle is the value the
    local [cap] gets. *)
Definition probe_try (i : Z) : M (Handle * probe_t) :=
  h <- cv2_VideoCapture E i None ;;
  ok <- cap_isOpened E h ;;
  if ok then
    w <- cap_get E h CAP_PROP_FRAME_WIDTH ;;
    hh <- cap_get E h CAP_PROP_FRAME_HEIGHT ;;
    f <- cap_get E h CAP_PROP_FPS ;;
    ret (h, ProbeOpen i (PyNum.int (PyNum.or_zero w))
                      (PyNum.int (PyNum.or_zero hh)) (PyNum.or_zero f))
  else ret (h, ProbeClosed i).

(** One iteration of the [for] of [list_cameras].  [cap_local] is the
    local variable [cap] as earlier iterations left it ([None] while it is
    not in [locals()]).  No external call of [Env] raises, so the [except]
    branch, kept for the shape of the code, is never entered. *)
Definition probe_once (cap_local : option Handle) (i : Z)
  : M (option Handle * probe_t) :=
  r <- try_except
         (x <- probe_try i ;; ret (Some (fst x), snd x))
         (fun e => ret (cap_local, ProbeError i (str_exn e))) ;;
  match fst r with
  | Some h => try_except (cap_release h) (fun _ => ret tt)
  | None => ret tt
  end ;;;
  ret r.

(** [for i in range(max_index)], run over the indices still to do. *)
Fixpoint probe_loop (todo : list nat) (cap_local : option Handle)
    (results : list probe_t) : M (list probe_t) :=
  match todo with
  | [] => ret results
  | i :: rest =>
      r <- probe_once cap_local (Z.of_nat i) ;;
      probe_loop rest (fst r) (results ++ [snd r])
  end.

(** The list under the key ["cameras"]. *)
Definition list_cameras (max_index : Z) : M (list probe_t) :=
  probe_loop (seq 0 (Z.to_nat max_index)) None [].

End Probe.

(* ------------------------------------------------------------------ *)
(** ** More observations on a history *)

(** The session is well formed: index and properties are there exactly
    when a handle is. *)
Definition session_wf (c : cam_t) : Prop :=
match cap c with
| Some _ => index c <> None /\ props c <> None
| None => index c = None /\ props c = None
end.

(** The handles created, and the handles released, oldest first. *)
Fixpoint opened_handles (tr : Trace) : list Handle :=
match tr with
| [] => []
| EvVideoCapture _ _ h :: r => h :: opened_handles r
| _ :: r => opened_handles r
end.

Fixpoint released_handles (tr : Trace) : list Handle :=
match tr with
| [] => []
| EvRelease h :: r => h :: released_handles r
| _ :: r => released_handles r
end.

(** The answers of [isOpened], oldest first. *)
Fixpoint ready_answers (tr : Trace) : list bool :=
match tr with
| [] => []
| EvIsOpened _ b :: r => b :: ready_answers r
| _ :: r => ready_answers r
end.

(** The number of calls of [cap.read]. *)
Fixpoint read_count (tr : Trace) : nat :=
match tr with
| [] => O
| EvRead _ _ :: r => S (read_count r)
| _ :: r => read_count r
end.

(** The properties set by [cap.set], oldest first. *)
Fixpoint props_set (tr : Trace) : list (CapProp * Q) :=
match tr with
| [] => []
| EvSet _ p v :: r => (p, v) :: props_set r
| _ :: r => props_set r
end.

(** [probing cur tr]: in [tr] a handle is created only while none is held,
    only the held handle is asked, read or released, and nothing but the
    probe calls happens; [cur] is the handle held at the start.  The
    result is the handle held at the end, or [None] when the discipline is
    broken. *)
Fixpoint probing (cur : option Handle) (tr : Trace) : option (option Handle) :=
match tr with
| [] => Some cur
| EvVideoCapture _ _ h :: r =>
    match cur with
    | None => probing (Some h) r
    | Some _ => None
    end
| EvIsOpened h _ :: r | EvGet h _ _ :: r =>
    match cur with
    | Some c => if Nat.eqb c h then probing cur r else None
    | None => None
    end
| EvRelease h :: r =>
    match cur with
    | Some c => if Nat.eqb c h then probing None r else None
    | None => None
    end
| _ :: _ => None
end.

(** The events before the directory is created, if it is. *)
Fixpoint before_mkdir (tr : Trace) : option Trace :=
match tr with
| [] => None
| EvMkdir _ _ :: _ => Some []
| e :: r => option_map (cons e) (before_mkdir r)
end.

(* ------------------------------------------------------------------ *)
(** ** A concrete environment, for examples *)

Module Lab.

Fixpoint reads_so_far (tr : Trace) : nat :=
  match tr with
  | [] => O
  | EvRead _ _ :: r => S (reads_so_far r)
  | _ :: r => reads_so_far r
  end.

(** A camera that is ready when [ready] holds and whose k-th read
    answers [script k]; an encoder that rejects frame 13; a clock that
    advances by 10 ms per external call; a disk on which ["/forbidden"]
    cannot be created and ["/readonly"] cannot be written. *)
Definition env (ready : bool) (script : nat -> option Frame) : Env :=
  {| cv2_getattr := fun name =>
       if String.eqb name "CAP_AVFOUNDATION" then Some 1200
       else if String.eqb name "CAP_MSMF" then Some 1400
       else if String.eqb name "CAP_DSHOW" then Some 700
       else if String.eqb name "CAP_V4L2" then Some 200
       else None;
     env_VideoCapture := fun tr _ _ => List.length tr;
     env_isOpened := fun _ _ => ready;
     env_get := fun _ _ p =>
       match p with
       | CAP_PROP_FRAME_WIDTH => 640
       | CAP_PROP_FRAME_HEIGHT => 480
       | CAP_PROP_FPS => 30
       | CAP_PROP_BUFFERSIZE => 1
       end%Q;
     env_read := fun tr _ => script (reads_so_far tr);
     env_imencode := fun _ f =>
       if Nat.eqb f 13 then None else Some [Byte.xff; Byte.xd8];
     env_perf_counter := fun tr => (inject_Z (Z.of_nat (List.length tr)) / 100)%Q;
     env_strftime := fun _ => "20240501_120000";
     env_time := fun _ => (1714564800 + (123 # 1000))%Q;
     env_Path := fun d => d;
     env_join := fun d n => (d ++ "/" ++ n)%string;
     env_mkdir := fun _ d =>
       if String.eqb d "/forbidden" then Some "Permission denied" else None;
     env_write := fun _ d _ _ =>
       if String.eqb d "/readonly" then Some "Read-only file system" else None
  |}.

(** Every read delivers a frame. *)
Definition steady : nat -> option Frame := fun _ => Some 1%nat.

(** Every read but the k-th delivers a frame. *)
Definition fails_at (k : nat) : nat -> option Frame :=
  fun j => if Nat.eqb j k then None else Some 1%nat.

(** The k-th read delivers the frame that the encoder rejects. *)
Definition blurred_at (k : nat) : nat -> option Frame :=
  fun j => if Nat.eqb j k then Some 13%nat else Some 1%nat.

(** A closed session, and a session opened on handle 1. *)
Definition closed : St := mkSt CAM_init [].
Definition opened : St :=
  mkSt (mkCam (Some 1%nat) (Some 0)
              (Some (mkProps 640 480 30 "auto"))) [].

End Lab.

(* ------------------------------------------------------------------ *)
(** ** Basic facts *)

(** Unfolds the monad and the external calls. *)
Ltac run_py :=
  cbv beta delta
    [bind ret raise try_except ask emit get_CAM set_CAM
     cv2_VideoCapture cap_isOpened cap_set cap_get cap_read cap_release
     time_perf_counter time_sleep time_strftime time_time
     path_mkdir write_file lift burst_period];
  cbn beta iota zeta delta [fst snd CAM trace].

(** Brings every history to the shape [tr ++ [e1; ...; en]]. *)
Ltac norm_tr :=
  repeat rewrite <- app_assoc in *; cbn [app] in *.

Lemma st_eta (st : St) : mkSt (CAM st) (trace st) = st.
Proof. destruct st; reflexivity. Qed.

Section Closed.

Variable E : Env.

Lemma grab_closed (st : St) :
  cap (CAM st) = None ->
  _grab_frame E st = (Returned (GrabFail "Camera not open"), st).
Proof.
  intros Hc. unfold _grab_frame. run_py. rewrite Hc. reflexivity.
Qed.

Lemma open_cam_already_open (st : St) (h : Handle)
      (camera_index width height fps : Z) (backend : string) :
  cap (CAM st) = Some h ->
  _open_cam E camera_index width height fps backend st
  = (Returned (true, "Camera already open"), st).
Proof.
  intros Hc. unfold _open_cam. run_py. rewrite Hc. reflexivity.
Qed.

(** Whenever [_open_cam] reports success a handle is present. *)
Lemma open_cam_ok_has_handle (st st' : St) (msg : string)
      (camera_index width height fps : Z) (backend : string) :
  _open_cam E camera_index width height fps backend st
  = (Returned (true, msg), st') ->
  exists h, cap (CAM st') = Some h.
Proof.
  intros H.
  assert (Hs : st' = snd (_open_cam E camera_index width height fps backend st))
    by (rewrite H; reflexivity).
  assert (Hf : fst (_open_cam E camera_index width height fps backend st)
               = Returned (true, msg))
    by (rewrite H; reflexivity).
  clear H. subst st'. revert Hf.
  unfold _open_cam. run_py.
  destruct (cap (CAM st)) as [h|] eqn:Hc.
  - intros _. cbn. eauto.
  - destruct (env_isOpened E _ _); cbn [negb].
    + destruct (0 <? width), (0 <? height), (0 <? fps); run_py;
        intros _; cbn; eauto.
    + cbn. discriminate.
Qed.

(** [_open_cam] never raises. *)
Lemma open_cam_returns (st : St)
      (camera_index width height fps : Z) (backend : string) :
  exists r st', _open_cam E camera_index width height fps backend st
                = (Returned r, st').
Proof.
  unfold _open_cam. run_py.
  destruct (cap (CAM st)); [eauto|].
  destruct (env_isOpened E _ _); cbn [negb]; [|eauto].
  destruct (0 <? width), (0 <? height), (0 <? fps); run_py; eauto.
Qed.

End Closed.

(* ------------------------------------------------------------------ *)
(** ** Opening twice *)

(** C6. In every state in which a handle is present, [vision_start] with
    any arguments returns ok with the message "Camera already open",
    reports the stored properties and index, makes no external call and
    leaves the state (handle, index, properties) as it was.  In
    particular, when a first [vision_start] reports ok, a second one with
    any arguments reports ok again, returns the same properties and index
    and leaves the state as the first left it. *)
Theorem C6_open_is_idempotent (E : Env)
        (camera_index width height fps : Z) (backend : string) :
  (forall st h,
      cap (CAM st) = Some h ->
      vision_start E camera_index width height fps backend st
      = (Returned (mkStart true "Camera already open"
                           (props (CAM st)) (index (CAM st))), st))
  /\ (forall ci0 w0 h0 f0 b0 st0 r1 st1,
         vision_start E ci0 w0 h0 f0 b0 st0 = (Returned r1, st1) ->
         s_ok r1 = true ->
         exists r2,
           vision_start E camera_index width height fps backend st1
           = (Returned r2, st1)
           /\ s_ok r2 = true
           /\ s_message r2 = "Camera already open"
           /\ s_props r2 = s_props r1
           /\ s_index r2 = s_index r1).
Proof.
  assert (Hrun : forall st h,
             cap (CAM st) = Some h ->
             vision_start E camera_index width height fps backend st
             = (Returned (mkStart true "Camera already open"
                                  (props (CAM st)) (index (CAM st))), st)).
  { intros st h Hc. unfold vision_start, bind.
    rewrite (open_cam_already_open E st h) by exact Hc.
    reflexivity. }
  split; [exact Hrun|].
  intros ci0 w0 h0 f0 b0 st0 r1 st1 H1 Hok.
  unfold vision_start, bind in H1.
  destruct (_open_cam E ci0 w0 h0 f0 b0 st0) as [[[ok msg]|e] s1] eqn:Ho;
    [|discriminate].
  unfold get_CAM, ret in H1. inversion H1; subst. cbn in Hok. subst ok.
  destruct (open_cam_ok_has_handle E _ _ _ _ _ _ _ _ Ho) as [h Hh].
  eexists. split; [exact (Hrun st1 h Hh)|]. cbn. auto.
Qed.

(** The first open of a ready camera, then a second open with other
    arguments. *)
Lemma C6_open_is_idempotent_witness :
  let E := Lab.env true Lab.steady in
  let st1 := snd (vision_start E 0 640 480 15 "auto" Lab.closed) in
  cap (CAM st1) = Some 0%nat
  /\ vision_start E 2 1280 720 30 "v4l2" st1
     = (Returned (mkStart true "Camera already open"
                          (props (CAM st1)) (index (CAM st1))), st1).
Proof.
  split; [reflexivity|].
  apply (proj1 (C6_open_is_idempotent (Lab.env true Lab.steady)
                                      2 1280 720 30 "v4l2") _ 0%nat).
  reflexivity.
Defined.

(* ------------------------------------------------------------------ *)
(** ** Operations on a closed session *)

(** C7. With no handle present, [vision_capture] and [vision_burst]
    return ok = false at once, both with the error "Camera not open", and
    leave the state as it was: the history gains no event, so no file is
    written and no directory is created. *)
Theorem C7_closed_session_fails_without_effect (E : Env) (st : St)
        (save_dir format : string) (n period_ms warmup duration_ms : Z) :
  cap (CAM st) = None ->
  vision_capture E save_dir format st
  = (Returned (CaptureErr "Camera not open"), st)
  /\ vision_burst E n period_ms save_dir format warmup duration_ms st
     = (Returned (BurstErr "Camera not open" None), st)
  /\ fs_calls (trace (snd (vision_capture E save_dir format st)))
     = fs_calls (trace st)
  /\ fs_calls (trace (snd (vision_burst E n period_ms save_dir format
                                        warmup duration_ms st)))
     = fs_calls (trace st).
Proof.
  intros Hc.
  assert (Hcap : vision_capture E save_dir format st
                 = (Returned (CaptureErr "Camera not open"), st)).
  { unfold vision_capture, bind. rewrite grab_closed by exact Hc. reflexivity. }
  assert (Hb : vision_burst E n period_ms save_dir format warmup duration_ms st
               = (Returned (BurstErr "Camera not open" None), st)).
  { unfold vision_burst. run_py. rewrite Hc. reflexivity. }
  rewrite Hcap, Hb. auto.
Qed.

Lemma C7_closed_session_fails_without_effect_witness :
  cap (CAM Lab.closed) = None
  /\ vision_capture (Lab.env true Lab.steady) "~/.vision_frames" "jpg" Lab.closed
     = (Returned (CaptureErr "Camera not open"), Lab.closed).
Proof.
  split; [reflexivity|].
  apply (C7_closed_session_fails_without_effect
           (Lab.env true Lab.steady) Lab.closed "~/.vision_frames" "jpg"
           8 150 3 0).
  reflexivity.
Defined.

(* ------------------------------------------------------------------ *)
(** ** The burst loop, as a relation on histories *)

Section Loop.

Variable E : Env.
Variable h : Handle.
Variables format out_dir : string.
Variables t0 period_s : Q.

Let ext := ext_of format.

(** The loop of the program runs as [LoopRun] says. *)
Lemma burst_loop_run (todo : list nat) :
  forall (paths : list string) (st : St),
    cap (CAM st) = Some h ->
    exists ev,
      LoopRun E h format out_dir t0 period_s (trace st) todo paths ev
              (fst (burst_loop E format out_dir ext t0 period_s todo paths st))
      /\ snd (burst_loop E format out_dir ext t0 period_s todo paths st)
         = mkSt (CAM st) (trace st ++ ev).
Proof.
  induction todo as [|i rest IH]; intros paths st Hc.
  - exists []. cbn. rewrite app_nil_r, st_eta. split; [constructor|reflexivity].
  - cbn [burst_loop]. unfold _grab_frame, _encode_image. run_py.
    set (now := env_perf_counter E (trace st)).
    assert (Htm : exists tm,
               tm = timing_events t0 period_s i now
               /\ (tm = [EvPerfCounter now;
                         EvSleep (burst_target t0 period_s i - now)]
                   /\ PyNum.fgt (burst_target t0 period_s i) now = true
                   \/ tm = [EvPerfCounter now]
                      /\ PyNum.fgt (burst_target t0 period_s i) now = false)).
    { unfold timing_events.
      destruct (PyNum.fgt (burst_target t0 period_s i) now); eauto. }
    destruct Htm as [tm [Htm [[Hshape Hg]|[Hshape Hg]]]]; rewrite Hg;
      run_py; rewrite Hc; run_py; norm_tr; rewrite <- Hshape;
      (destruct (env_isOpened E (trace st ++ tm) h) eqn:Ho; cbn [negb];
       [|eexists; split;
         [eapply (LoopNotReady E h format out_dir t0 period_s _ _ _ _ tm); eauto
         |rewrite Hshape; cbn; norm_tr; reflexivity]]);
      run_py; norm_tr;
      (match goal with
       | |- context [env_read E ?tr h] =>
           destruct (env_read E tr h) as [frame|] eqn:Hr
       end;
       [|eexists; split;
         [eapply (LoopNoFrame E h format out_dir t0 period_s _ _ _ _ tm); eauto;
          rewrite Hshape; norm_tr; exact Hr
         |rewrite Hshape; cbn; norm_tr; reflexivity]]);
      run_py; fold ext;
      (destruct (env_imencode E ext frame) as [data|] eqn:He; cbn [negb];
       [|eexists; split;
         [eapply (LoopNoEncode E h format out_dir t0 period_s _ _ _ _ tm); eauto;
          rewrite Hshape; norm_tr; exact Hr
         |rewrite Hshape; cbn; norm_tr; reflexivity]]);
      run_py; norm_tr;
      match goal with
      | |- context [EvStrftime ?s] => set (ts := s)
      end;
      match goal with
      | |- context [EvTime ?x] => set (t := x)
      end;
      (match goal with
       | |- context [env_write E ?tr out_dir ?nm data] =>
           destruct (env_write E tr out_dir nm data) as [msg|] eqn:Hw
       end;
       [eexists; split;
        [eapply (LoopWriteRaises E h format out_dir t0 period_s _ _ _ _ tm _ _ ts t); eauto;
         rewrite Hshape; norm_tr; eauto
        |rewrite Hshape; cbn; norm_tr; reflexivity]
       |]);
      run_py; norm_tr;
      match goal with
      | |- context [burst_loop E format out_dir ext t0 period_s rest ?p ?s] =>
          destruct (IH p s Hc) as [ev [Hrun Hst]];
          cbn [trace CAM] in Hrun, Hst
      end;
      (eexists; split;
       [eapply (LoopNext E h format out_dir t0 period_s _ _ _ _ tm _ _ ts t); eauto;
        rewrite Hshape; norm_tr; eauto
       |rewrite Hst; rewrite Hshape; cbn; norm_tr; reflexivity]).
Qed.

End Loop.

(* ------------------------------------------------------------------ *)
(** ** A whole burst, as a relation on histories *)

Section Burst.

Variable E : Env.
Variables n period_ms : Z.
Variables save_dir format : string.
Variables warmup duration_ms : Z.

Let out_dir := env_Path E save_dir.
Let ext := ext_of format.

Lemma warmup_reads_run (h : Handle) (k : nat) :
  forall st,
    warmup_reads E k h st
    = (Returned tt, mkSt (CAM st) (trace st ++ warmup_events E h (trace st) k)).
Proof.
  induction k as [|k IH]; intros st.
  - cbn. rewrite app_nil_r, st_eta. reflexivity.
  - cbn [warmup_reads warmup_events]. run_py. rewrite IH. cbn [CAM trace].
    norm_tr. reflexivity.
Qed.

Lemma burst_count_run (st : St) :
  burst_count n period_ms duration_ms st
  = (effective_count n period_ms duration_ms, st).
Proof.
  unfold burst_count, effective_count, lift, ret.
  destruct (0 <? duration_ms); reflexivity.
Qed.

(** The program runs as [BurstRun] says. *)
Lemma vision_burst_run (st : St) :
  exists new,
    BurstRun E n period_ms save_dir format warmup duration_ms st new
             (fst (vision_burst E n period_ms save_dir format warmup
                                duration_ms st))
    /\ snd (vision_burst E n period_ms save_dir format warmup duration_ms st)
       = mkSt (CAM st) (trace st ++ new).
Proof.
  destruct (cap (CAM st)) as [h|] eqn:Hc.
  2:{ exists []. unfold vision_burst. run_py. rewrite Hc. cbn.
      rewrite app_nil_r, st_eta.
      split; [apply BurstClosed; exact Hc | reflexivity]. }
  destruct (env_isOpened E (trace st) h) eqn:Ho.
  2:{ eexists. unfold vision_burst. run_py. rewrite Hc, Ho. cbn.
      split; [eapply BurstNotReady; eauto | reflexivity]. }
  unfold vision_burst. run_py. rewrite Hc, Ho. cbn [negb].
  rewrite burst_count_run.
  destruct (effective_count n period_ms duration_ms) as [c|e] eqn:Hcount.
  2:{ eexists. cbn.
      split; [eapply BurstCountRaises; eauto | reflexivity]. }
  rewrite warmup_reads_run. run_py. norm_tr.
  fold out_dir.
  change (EvIsOpened h true
            :: EvSet h CAP_PROP_BUFFERSIZE 1
            :: warmup_events E h
                 (trace st ++ [EvIsOpened h true; EvSet h CAP_PROP_BUFFERSIZE 1])
                 (Z.to_nat (Z.max 0 warmup)))
    with (prelude_reads E warmup h (trace st)).
  destruct (env_mkdir E (trace st ++ prelude_reads E warmup h (trace st)) out_dir)
    as [msg|] eqn:Hm.
  { exists (prelude E save_dir warmup h (trace st) (Some msg)). cbn [fst snd].
    split; [eapply BurstMkdirRaises; eauto|].
    unfold prelude, prelude_reads. norm_tr. reflexivity. }
  run_py.
  change (EvIsOpened h true
            :: EvSet h CAP_PROP_BUFFERSIZE 1
            :: warmup_events E h
                 (trace st ++ [EvIsOpened h true; EvSet h CAP_PROP_BUFFERSIZE 1])
                 (Z.to_nat (Z.max 0 warmup)) ++ [EvMkdir out_dir None])
    with (prelude E save_dir warmup h (trace st) None).
  destruct (py_float period_ms) as [f|e] eqn:Hf.
  2:{ exists (prelude E save_dir warmup h (trace st) None). cbn [fst snd].
      split; [eapply BurstPeriodRaises; eauto | reflexivity]. }
  run_py.
  replace (Z.to_nat (Z.max 1 c)) with (iterations n period_ms duration_ms)
    by (unfold iterations; rewrite Hcount; reflexivity).
  set (t0 := env_perf_counter E (trace st ++ prelude E save_dir warmup h (trace st) None)).
  match goal with
  | |- context [burst_loop E format out_dir ?x t0 ?ps ?todo ?p ?s] =>
      destruct (burst_loop_run E h format out_dir t0 ps todo p s Hc)
        as [ev [Hrun Hst]];
      destruct (burst_loop E format out_dir x t0 ps todo p s)
        as [r s'] eqn:Hl
  end.
  cbn [fst snd trace CAM] in Hrun, Hst. subst s'.
  exists (prelude E save_dir warmup h (trace st) None ++ EvPerfCounter t0 :: ev).
  split.
  - replace (fst _) with (burst_finish E period_ms save_dir format duration_ms (CAM st) r).
    + eapply BurstLooped; eauto.
      rewrite <- app_assoc in Hrun. exact Hrun.
    + destruct r as [[early|paths]|e]; reflexivity.
  - destruct r as [[early|paths]|e]; cbn [fst snd];
      unfold prelude, prelude_reads; norm_tr; reflexivity.
Qed.

End Burst.

(* ------------------------------------------------------------------ *)
(** ** What a history of the loop shows *)

Lemma files_written_app (a b : Trace) :
  files_written (a ++ b) = files_written a ++ files_written b.
Proof.
  induction a as [|e a IH]; [reflexivity|].
  destruct e; cbn; try exact IH.
  destruct err; cbn; [exact IH | rewrite IH; reflexivity].
Qed.

Lemma fs_calls_app (a b : Trace) :
  fs_calls (a ++ b) = fs_calls a ++ fs_calls b.
Proof.
  induction a as [|e a IH]; [reflexivity|].
  destruct e; cbn; try exact IH; rewrite IH; reflexivity.
Qed.

Lemma grabs_app (a b : Trace) : grabs (a ++ b) = grabs a ++ grabs b.
Proof.
  induction a as [|e a IH]; [reflexivity|].
  destruct e; cbn; try exact IH.
  - destruct b0; cbn; [exact IH | rewrite IH; reflexivity].
  - rewrite IH; reflexivity.
Qed.

Lemma verdicts_app (E : Env) (format : string) (a b : Trace) :
  verdicts E format (a ++ b) = verdicts E format a ++ verdicts E format b.
Proof. unfold verdicts. rewrite grabs_app, map_app. reflexivity. Qed.

Lemma clock_reads_app (a b : Trace) :
  clock_reads (a ++ b) = (clock_reads a + clock_reads b)%nat.
Proof. unfold clock_reads. rewrite filter_app, length_app. reflexivity. Qed.

Lemma after_t0_skip (a b : Trace) :
  forallb (fun e => negb (is_timing e)) a = true ->
  after_t0 (a ++ b) = after_t0 b.
Proof.
  induction a as [|e a IH]; [reflexivity|].
  cbn [forallb]. intros H. apply andb_prop in H. destruct H as [He Ha].
  destruct e; cbn in He |- *; try discriminate; apply IH; exact Ha.
Qed.

Lemma after_t0_none (a : Trace) :
  forallb (fun e => negb (is_timing e)) a = true -> after_t0 a = None.
Proof.
  intros H. rewrite <- (app_nil_r a). rewrite after_t0_skip by exact H.
  reflexivity.
Qed.

Lemma warmup_events_shape (E : Env) (h : Handle) (k : nat) :
  forall tr,
    forallb (fun e => negb (is_timing e)) (warmup_events E h tr k) = true
    /\ files_written (warmup_events E h tr k) = []
    /\ fs_calls (warmup_events E h tr k) = [].
Proof.
  induction k as [|k IH]; intros tr; cbn; [auto|].
  destruct (IH (tr ++ [EvRead h (env_read E tr h)])) as [H1 [H2 H3]]. auto.
Qed.

Lemma timing_events_shape (t0 period_s : Q) (i : nat) (now : Q) :
  files_written (timing_events t0 period_s i now) = []
  /\ grabs (timing_events t0 period_s i now) = []
  /\ clock_reads (timing_events t0 period_s i now) = 1%nat.
Proof.
  unfold timing_events. destruct (PyNum.fgt _ _); cbn; auto.
Qed.

Section LoopFacts.

Variable E : Env.
Variable h : Handle.
Variables format out_dir : string.
Variables t0 period_s : Q.

Let ext := ext_of format.
Let Run := LoopRun E h format out_dir t0 period_s.

(** Every run of the loop writes files for a prefix of the indices, in
    order, and ends in one of three ways: all indices done, every grab
    good; an early return after one bad grab, which is the last event; a
    raise out of a file write that follows a good grab. *)
Lemma LoopRun_summary tr todo paths ev r :
  Run tr todo paths ev r ->
  exists names : list string,
    files_written ev = map (fun nm => (out_dir, nm)) names
    /\ (forall k nm, nth_error names k = Some nm ->
                     exists i, nth_error todo k = Some i /\ named format i nm)
    /\ clock_reads ev = List.length (verdicts E format ev)
    /\ match r with
       | Returned (inr ps) =>
           ps = paths ++ map (env_join E out_dir) names
           /\ List.length names = List.length todo
           /\ verdicts E format ev = repeat true (List.length names)
       | Returned (inl early) =>
           (exists msg,
               early = BurstErr msg
                                (Some (paths ++ map (env_join E out_dir) names)))
           /\ (List.length names < List.length todo)%nat
           /\ verdicts E format ev = repeat true (List.length names) ++ [false]
           /\ (exists pre e,
                  ev = pre ++ [e]
                  /\ (e = EvIsOpened h false \/ exists o, e = EvRead h o))
       | Raised e =>
           (exists msg, e = OSError msg)
           /\ (List.length names < List.length todo)%nat
           /\ verdicts E format ev = repeat true (S (List.length names))
       end.
Proof.
  unfold Run. intros H.
  induction H as
      [ tr paths
      | tr i rest paths tm Htm Ho
      | tr i rest paths tm Htm Ho Hr
      | tr i rest paths tm frame Htm Ho Hr He
      | tr i rest paths tm frame data ts t msg Htm Ho Hr He Hw
      | tr i rest paths tm frame data ts t chunk ev r Htm Ho Hr He Hw Hchunk Hrun IH ].
  - exists []. cbn. rewrite app_nil_r.
    repeat split; try (intros [|k] nm; discriminate); auto.
  - exists []. destruct (timing_events_shape t0 period_s i (env_perf_counter E tr))
      as [Hf [Hg Hc]]; rewrite <- Htm in *;
    assert (Hv : verdicts E format tm = [])
      by (unfold verdicts; rewrite Hg; reflexivity);
    rewrite files_written_app, verdicts_app, clock_reads_app, Hf, Hc, Hv.
    cbn. rewrite ?app_nil_r.
    repeat split; try (intros [|k] nm; discriminate); eauto; try lia.
  - exists []. destruct (timing_events_shape t0 period_s i (env_perf_counter E tr))
      as [Hf [Hg Hc]]; rewrite <- Htm in *;
    assert (Hv : verdicts E format tm = [])
      by (unfold verdicts; rewrite Hg; reflexivity);
    rewrite files_written_app, verdicts_app, clock_reads_app, Hf, Hc, Hv.
    cbn. rewrite ?app_nil_r.
    repeat split; try (intros [|k] nm; discriminate); eauto; try lia.
    exists (tm ++ [EvIsOpened h true]), (EvRead h None).
    rewrite <- app_assoc. eauto.
  - exists []. destruct (timing_events_shape t0 period_s i (env_perf_counter E tr))
      as [Hf [Hg Hc]]; rewrite <- Htm in *;
    assert (Hv : verdicts E format tm = [])
      by (unfold verdicts; rewrite Hg; reflexivity);
    rewrite files_written_app, verdicts_app, clock_reads_app, Hf, Hc, Hv.
    cbn. unfold ext in *. rewrite He, ?app_nil_r.
    repeat split; try (intros [|k] nm; discriminate); eauto; try lia.
    exists (tm ++ [EvIsOpened h true]), (EvRead h (Some frame)).
    rewrite <- app_assoc. eauto.
  - exists []. destruct (timing_events_shape t0 period_s i (env_perf_counter E tr))
      as [Hf [Hg Hc]]; rewrite <- Htm in *;
    assert (Hv : verdicts E format tm = [])
      by (unfold verdicts; rewrite Hg; reflexivity);
    rewrite files_written_app, verdicts_app, clock_reads_app, Hf, Hc, Hv.
    cbn. unfold ext in *. rewrite He, ?app_nil_r.
    repeat split; try (intros [|k] nm; discriminate); eauto; lia.
  - destruct IH as [names [Hfw [Hnames [Hclk Hres]]]].
    exists (burst_name ts (millis t) i ext :: names).
    destruct (timing_events_shape t0 period_s i (env_perf_counter E tr))
      as [Hf [Hg Hc]]. rewrite <- Htm in *.
    assert (Hcf : files_written chunk = [(out_dir, burst_name ts (millis t) i ext)]).
    { rewrite Hchunk, files_written_app, Hf. reflexivity. }
    assert (Hv : verdicts E format tm = [])
      by (unfold verdicts; rewrite Hg; reflexivity).
    assert (Hcv : verdicts E format chunk = [true]).
    { rewrite Hchunk, verdicts_app, Hv.
      cbn. unfold ext in *. rewrite He. reflexivity. }
    assert (Hcc : clock_reads chunk = 1%nat).
    { rewrite Hchunk, clock_reads_app, Hc. reflexivity. }
    rewrite files_written_app, verdicts_app, clock_reads_app, Hcf, Hcv, Hcc, Hfw.
    split; [reflexivity|]. split; [|split].
    + intros [|k] nm Hk; cbn in Hk.
      * inversion Hk; subst. exists i. split; [reflexivity|].
        exists ts, t. reflexivity.
      * exact (Hnames k nm Hk).
    + cbn. rewrite Hclk. reflexivity.
    + destruct r as [[early|ps]|e].
      * destruct Hres as [[msg Hm] [Hlt [Hvr [pre [e0 [Hev He0]]]]]].
        split; [exists msg; rewrite Hm, <- app_assoc; reflexivity|].
        split; [cbn; lia|]. split; [rewrite Hvr; reflexivity|].
        exists (chunk ++ pre), e0. rewrite Hev, app_assoc. auto.
      * destruct Hres as [Hps [Hlen Hvr]].
        split; [rewrite Hps, <- app_assoc; reflexivity|].
        split; [cbn; lia|]. rewrite Hvr. reflexivity.
      * destruct Hres as [Hm [Hlt Hvr]].
        split; [exact Hm|]. split; [cbn; lia|]. rewrite Hvr. reflexivity.
Qed.

End LoopFacts.

(* ------------------------------------------------------------------ *)
(** ** What a history of a whole burst shows *)

Section BurstFacts.

Variable E : Env.
Variables n period_ms : Z.
Variables save_dir format : string.
Variables warmup duration_ms : Z.

Let out_dir := env_Path E save_dir.

Lemma prelude_shape (h : Handle) (tr : Trace) (mk : option string) :
  no_timing (prelude E save_dir warmup h tr mk) = true
  /\ files_written (prelude E save_dir warmup h tr (Some "")) = []
  /\ (mk = None ->
      fs_calls (prelude E save_dir warmup h tr mk) = [EvMkdir out_dir None]).
Proof.
  unfold prelude, prelude_reads, no_timing.
  match goal with
  | |- context [warmup_events E h ?t ?k] =>
      destruct (warmup_events_shape E h k t) as [H1 [H2 H3]]
  end.
  repeat split.
  - rewrite !forallb_app, H1. reflexivity.
  - rewrite !files_written_app, H2. reflexivity.
  - intros ->. rewrite !fs_calls_app, H3. reflexivity.
Qed.

Lemma prelude_no_files (h : Handle) (tr : Trace) (mk : option string) :
  files_written (prelude E save_dir warmup h tr mk) = [].
Proof.
  unfold prelude, prelude_reads.
  match goal with
  | |- context [warmup_events E h ?t ?k] =>
      destruct (warmup_events_shape E h k t) as [H1 [H2 H3]]
  end.
  rewrite !files_written_app, H2. destruct mk; reflexivity.
Qed.

(** A burst either stops before the clock is read, having made no timing
    call and written no file, or reads [t0] once and runs the loop. *)
Lemma BurstRun_cases st new r :
  BurstRun E n period_ms save_dir format warmup duration_ms st new r ->
  (after_t0 new = None /\ no_timing new = true /\ files_written new = []
   /\ stopped_early r)
  \/ (exists h pre t0 ev lr,
         cap (CAM st) = Some h
         /\ new = pre ++ EvPerfCounter t0 :: ev
         /\ no_timing pre = true
         /\ files_written pre = []
         /\ after_t0 new = Some (t0, ev)
         /\ LoopRun E h format out_dir t0 (period_seconds period_ms)
                    (trace st ++ pre ++ [EvPerfCounter t0])
                    (seq 0 (iterations n period_ms duration_ms)) [] ev lr
         /\ r = burst_finish E period_ms save_dir format duration_ms (CAM st) lr).
Proof.
  intros H. destruct H as [Hc|h Hc Ho|h e Hc Ho He|h msg Hc Ho Hp Hm
                           |h e Hc Ho Hp Hm He
                           |h t0 ev lr Hc Ho Hp Hm Ht Hrun].
  - left. unfold stopped_early. repeat split; auto.
  - left. unfold stopped_early. repeat split; auto.
  - left. unfold stopped_early. repeat split; auto.
    destruct e; eauto 6.
  - left. destruct (prelude_shape h (trace st) (Some msg)) as [H1 _].
    repeat split.
    + apply after_t0_none. exact H1.
    + exact H1.
    + apply prelude_no_files.
    + unfold stopped_early. eauto 6.
  - left. destruct (prelude_shape h (trace st) None) as [H1 _].
    repeat split.
    + apply after_t0_none. exact H1.
    + exact H1.
    + apply prelude_no_files.
    + unfold stopped_early. destruct e; eauto 6.
  - right. destruct (prelude_shape h (trace st) None) as [H1 _].
    exists h, (prelude E save_dir warmup h (trace st) None), t0, ev, lr.
    repeat split; auto.
    + apply prelude_no_files.
    + rewrite after_t0_skip by exact H1. reflexivity.
Qed.

(** The events a call appends are determined by the two states. *)
Lemma vision_burst_new st res st' new :
  vision_burst E n period_ms save_dir format warmup duration_ms st = (res, st') ->
  trace st' = trace st ++ new ->
  BurstRun E n period_ms save_dir format warmup duration_ms st new res.
Proof.
  intros Hrun Htr.
  destruct (vision_burst_run E n period_ms save_dir format warmup duration_ms st)
    as [new' [Hb Hs]].
  rewrite Hrun in Hb, Hs. cbn [fst snd] in Hb, Hs.
  subst st'. cbn [trace] in Htr. apply app_inv_head in Htr. subst new'.
  exact Hb.
Qed.

End BurstFacts.

(** A list of verdicts that is good below [i] and bad at [i] is not all
    good, and when it is good up to its last entry that entry is [i]. *)
Lemma verdicts_all_good (l : list bool) (m i : nat) :
  l = repeat true m -> nth_error l i = Some false -> False.
Proof.
  intros -> H. apply nth_error_In in H. apply repeat_spec in H. discriminate.
Qed.

Lemma verdicts_first_bad (l : list bool) (m i : nat) :
  l = repeat true m ++ [false] ->
  (forall k, (k < i)%nat -> nth_error l k = Some true) ->
  nth_error l i = Some false ->
  i = m.
Proof.
  intros -> Hgood Hbad.
  destruct (Nat.lt_trichotomy i m) as [Hlt|[Heq|Hgt]]; [|exact Heq|].
  - rewrite nth_error_app1 in Hbad by (rewrite repeat_length; exact Hlt).
    rewrite nth_error_repeat in Hbad by exact Hlt. discriminate.
  - specialize (Hgood m Hgt).
    rewrite nth_error_app2 in Hgood by (rewrite repeat_length; lia).
    rewrite repeat_length, Nat.sub_diag in Hgood. discriminate.
Qed.

(* ------------------------------------------------------------------ *)
(** ** A burst that loses a frame *)

(** C2. In every run of [vision_burst] that reaches the loop, if the
    grabs of the frames [0 .. i-1] were good (frame read and encoded) and
    the grab of frame [i] is bad (device not ready, no frame, or the
    encoder rejects it), then the burst returns ok = false with a list of
    exactly [i] paths; these are the paths of the files written by the
    call, in the order of writing, the k-th being the file of index [k];
    no grab follows the bad one, which is the last external call of the
    run, so no file of index [i] or later exists. *)
Theorem C2_burst_abort_keeps_partial_paths (E : Env)
        (n period_ms : Z) (save_dir format : string) (warmup duration_ms : Z)
        (st st' : St) (res : res burst_result) (new loop : Trace)
        (t0 : Q) (i : nat) :
  vision_burst E n period_ms save_dir format warmup duration_ms st = (res, st') ->
  trace st' = trace st ++ new ->
  after_t0 new = Some (t0, loop) ->
  (forall k, (k < i)%nat -> nth_error (verdicts E format loop) k = Some true) ->
  nth_error (verdicts E format loop) i = Some false ->
  exists msg names,
    res = Returned (BurstErr msg
                      (Some (map (env_join E (env_Path E save_dir)) names)))
    /\ List.length names = i
    /\ files_written new = map (fun nm => (env_Path E save_dir, nm)) names
    /\ (forall k nm, nth_error names k = Some nm -> named format k nm)
    /\ List.length (verdicts E format loop) = S i
    /\ (exists pre e,
           new = pre ++ [e]
           /\ ((exists h, e = EvIsOpened h false) \/ exists h o, e = EvRead h o)).
Proof.
  intros Hrun Htr Hloop Hgood Hbad.
  pose proof (vision_burst_new E _ _ _ _ _ _ _ _ _ _ Hrun Htr) as Hb.
  apply BurstRun_cases in Hb.
  destruct Hb as [[Hnone _]|[h [pre [t1 [ev [lr [Hc [Hnew [Hpre [Hpf [Haft [Hl Hr]]]]]]]]]]]].
  { rewrite Hnone in Hloop. discriminate. }
  rewrite Haft in Hloop. inversion Hloop; subst t1 ev. clear Hloop.
  destruct (LoopRun_summary E h format _ _ _ _ _ _ _ _ Hl)
    as [names [Hfw [Hnames [_ Hres]]]].
  destruct lr as [[early|ps]|e].
  - destruct Hres as [[msg Hm] [Hlt [Hv [pre' [e' [Hev He']]]]]].
    assert (Hi : i = List.length names)
      by (eapply verdicts_first_bad; eauto).
    exists msg, names. subst early. cbn in Hr.
    split; [exact Hr|]. split; [symmetry; exact Hi|].
    split; [rewrite Hnew, files_written_app, Hpf; exact Hfw|].
    split.
    { intros k nm Hk. destruct (Hnames k nm Hk) as [j [Hj Hnm]].
      rewrite nth_error_seq in Hj.
      destruct (k <? iterations n period_ms duration_ms)%nat; [|discriminate].
      inversion Hj; subst j. exact Hnm. }
    split.
    { rewrite Hv, length_app, repeat_length. cbn. lia. }
    exists (pre ++ EvPerfCounter t0 :: pre'), e'.
    split.
    + rewrite Hnew, Hev, <- app_assoc. reflexivity.
    + destruct He' as [->|[o ->]]; eauto.
  - destruct Hres as [_ [_ Hv]].
    exfalso. eapply verdicts_all_good; eauto.
  - destruct Hres as [_ [_ Hv]].
    exfalso. eapply verdicts_all_good; eauto.
Qed.

(** The third of five reads fails: two paths are kept. *)
Lemma C2_burst_abort_keeps_partial_paths_witness :
  let E := Lab.env true (Lab.fails_at 2) in
  exists msg names,
    fst (vision_burst E 5 100 "out" "jpg" 0 0 Lab.opened)
    = Returned (BurstErr msg (Some (map (env_join E (env_Path E "out")) names)))
    /\ List.length names = 2%nat.
Proof.
  intros E.
  pose (run := vision_burst E 5 100 "out" "jpg" 0 0 Lab.opened).
  pose (new := trace (snd run)).
  pose (t0 := match after_t0 new with Some p => fst p | None => 0%Q end).
  pose (loop := match after_t0 new with Some p => snd p | None => [] end).
  destruct (C2_burst_abort_keeps_partial_paths
              E 5 100 "out" "jpg" 0 0 Lab.opened (snd run) (fst run)
              new loop t0 2%nat)
    as [msg [names [H1 [H2 _]]]].
  - apply surjective_pairing.
  - reflexivity.
  - vm_compute. reflexivity.
  - intros k Hk. destruct k as [|[|k]]; [reflexivity | reflexivity | lia].
  - reflexivity.
  - exists msg, names. split; [exact H1 | exact H2].
Defined.

(** The same when the encoder rejects the third frame. *)
Example burst_abort_on_encode_failure :
  fst (vision_burst (Lab.env true (Lab.blurred_at 2)) 5 100 "out" "jpg" 0 0
                    Lab.opened)
  = Returned (BurstErr "cv2.imencode failed"
                (Some ["out/asl_20240501_120000_123_00.jpg";
                       "out/asl_20240501_120000_123_01.jpg"]))
  /\ List.length
       (files_written
          (trace (snd (vision_burst (Lab.env true (Lab.blurred_at 2)) 5 100
                                    "out" "jpg" 0 0 Lab.opened))))
     = 2%nat.
Proof. split; reflexivity. Qed.

(* ------------------------------------------------------------------ *)
(** ** Index suffixes of burst files *)

Lemma to_uint_nonnil (n : nat) : Nat.to_uint n <> Decimal.Nil.
Proof.
  rewrite <- (Unsigned.of_to n) at 1. rewrite Unsigned.to_of.
  apply DecimalFacts.unorm_nonnil.
Qed.

Lemma parse_dec_dec (n : nat) : PyStr.parse_dec (PyStr.dec n) = Some n.
Proof.
  unfold PyStr.parse_dec, PyStr.dec.
  rewrite NilZero.usu by apply to_uint_nonnil.
  cbn. rewrite Unsigned.of_to. reflexivity.
Qed.

Lemma dec_nonempty (n : nat) : PyStr.dec n <> EmptyString.
Proof.
  intros H. pose proof (parse_dec_dec n) as P. rewrite H in P. discriminate.
Qed.

Lemma parse_dec_zeros (k : nat) (s : string) (n : nat) :
  s <> EmptyString ->
  PyStr.parse_dec s = Some n ->
  PyStr.parse_dec (PyStr.zeros k ++ s)%string = Some n.
Proof.
  intros Hs Hp. induction k as [|k IH]; [exact Hp|].
  cbn [PyStr.zeros String.append].
  unfold PyStr.parse_dec in *.
  assert (Hne : (PyStr.zeros k ++ s)%string <> EmptyString).
  { destruct k; cbn; [exact Hs | discriminate]. }
  destruct (PyStr.zeros k ++ s)%string as [|a r] eqn:Hz; [contradiction|].
  cbn [NilZero.uint_of_string] in *.
  change (NilEmpty.uint_of_string (String "0" (String a r)))
    with (uint_of_char "0" (NilEmpty.uint_of_string (String a r))).
  destruct (NilEmpty.uint_of_string (String a r)) as [d|]; [|discriminate].
  cbn in IH |- *. exact IH.
Qed.

(** The index printed by [{i:02d}] reads back as [i]: the suffixes of
    successive indices are strictly increasing numerals. *)
Lemma fmt_0d_reads_back (w k : nat) :
  PyStr.parse_dec (PyStr.fmt_0d w (Z.of_nat k)) = Some k.
Proof.
  unfold PyStr.fmt_0d.
  destruct (Z.of_nat k) as [|p|p] eqn:Hz; try lia.
  - replace k with O by lia. apply parse_dec_zeros; [apply dec_nonempty|].
    apply parse_dec_dec.
  - replace (Z.to_nat (Z.pos p)) with k by lia.
    apply parse_dec_zeros; [apply dec_nonempty | apply parse_dec_dec].
Qed.


(* ------------------------------------------------------------------ *)
(** ** Reading the index off a file name *)

Lemma string_length_app (a b : string) :
  String.length (a ++ b)%string = (String.length a + String.length b)%nat.
Proof. induction a as [|c a IH]; cbn; [reflexivity | rewrite IH; reflexivity]. Qed.

Lemma string_app_assoc (a b c : string) :
  ((a ++ b) ++ c = a ++ (b ++ c))%string.
Proof. induction a as [|x a IH]; cbn; [reflexivity | rewrite IH; reflexivity]. Qed.

Lemma string_app_inv_tail (a a' b : string) :
  (a ++ b = a' ++ b)%string -> a = a'.
Proof.
  revert a'. induction a as [|c a IH]; intros [|c' a'] H; cbn in H.
  - reflexivity.
  - apply (f_equal String.length) in H. cbn in H.
    rewrite string_length_app in H. lia.
  - apply (f_equal String.length) in H. cbn in H.
    rewrite string_length_app in H. lia.
  - injection H as Hc Hr. rewrite Hc, (IH a' Hr). reflexivity.
Qed.

Lemma contains_app (c : ascii) (a b : string) :
  contains c (a ++ b)%string = contains c a || contains c b.
Proof.
  induction a as [|x a IH]; cbn; [reflexivity|].
  rewrite IH, orb_assoc. reflexivity.
Qed.

Lemma after_last_app (c : ascii) (a d : string) :
  contains c d = false ->
  after_last c (a ++ String c d)%string = d.
Proof.
  intros Hd. induction a as [|x a IH]; cbn [String.append after_last].
  - rewrite Hd, Ascii.eqb_refl. reflexivity.
  - rewrite contains_app. cbn [contains]. rewrite Ascii.eqb_refl.
    rewrite orb_true_l, orb_true_r. exact IH.
Qed.

Lemma digits_no_underscore (d : Decimal.uint) :
  contains "_" (NilEmpty.string_of_uint d) = false.
Proof. induction d; cbn; auto. Qed.

Lemma dec_no_underscore (k : nat) : contains "_" (PyStr.dec k) = false.
Proof.
  unfold PyStr.dec, NilZero.string_of_uint.
  destruct (Nat.to_uint k) eqn:Hd; try reflexivity;
    rewrite <- Hd; apply digits_no_underscore.
Qed.

Lemma zeros_no_underscore (k : nat) : contains "_" (PyStr.zeros k) = false.
Proof. induction k; cbn; auto. Qed.

Lemma fmt_0d_no_underscore (w k : nat) :
  contains "_" (PyStr.fmt_0d w (Z.of_nat k)) = false.
Proof.
  unfold PyStr.fmt_0d.
  destruct (Z.of_nat k) eqn:Hz; try lia;
    rewrite contains_app, zeros_no_underscore, dec_no_underscore; reflexivity.
Qed.

Lemma burst_name_split (ts : string) (ms : Z) (i : nat) (ext : string) :
  burst_name ts ms i ext
  = ((("asl_" ++ ts ++ "_" ++ PyStr.fmt_0d 3 ms)
        ++ String "_" (PyStr.fmt_0d 2 (Z.of_nat i))) ++ ext)%string.
Proof.
  unfold burst_name. cbn [String.append].
  rewrite !string_app_assoc. cbn [String.append]. reflexivity.
Qed.





(* ------------------------------------------------------------------ *)
(** ** A burst on a device that never fails *)


(** A count that is defined with [duration_ms > 0] was computed from a
    period that converts to a float. *)
Lemma count_defined_period (n period_ms duration_ms c : Z) :
  0 < duration_ms ->
  effective_count n period_ms duration_ms = Returned c ->
  exists f, py_float period_ms = Returned f.
Proof.
  intros Hd. unfold effective_count, duration_count.
  replace (0 <? duration_ms) with true by (symmetry; apply Z.ltb_lt; exact Hd).
  destruct (py_float duration_ms); [|discriminate].
  destruct (py_float period_ms) as [f|e]; [eauto | discriminate].
Qed.





(* ------------------------------------------------------------------ *)
(** ** The effective frame count of a burst *)






(** The quotient is that of the two doubles: [2^54 - 1] converts to
    [2^54], the quotient by it of [5 * 2^53] is exactly 2.5, and the
    count is 2 (the quotient of the integers, slightly above 2.5, would
    round to 3).  An int beyond the range of a double cannot be
    converted. *)
Example count_is_computed_on_doubles :
  specified_count 8 (2 ^ 54 - 1) (5 * 2 ^ 53) = Some 2
  /\ PyNum.round (inject_Z (5 * 2 ^ 53) / inject_Z (2 ^ 54 - 1)) = 3
  /\ effective_count 8 1 (10 ^ 400)
     = Raised (OverflowError "int too large to convert to float")
  /\ specified_count 8 150 1000 = Some 7
  /\ specified_count 8 200 500 = Some 2
  /\ specified_count 8 1000 1 = Some 1.
Proof. vm_compute. repeat split; reflexivity. Qed.

(** Conversions and quotients round to the nearest double, ties to the
    even one; rounding to an int takes the even neighbour of a half. *)
Example doubles_round_to_nearest_even :
  PyNum.float64 (2 ^ 53 + 1) = PyNum.float64 (2 ^ 53)
  /\ PyNum.float64 (2 ^ 53 + 3) = PyNum.float64 (2 ^ 53 + 4)
  /\ PyNum.float64 (2 ^ 1024) = None
  /\ PyNum.float64 (- 2 ^ 1024) = None
  /\ PyNum.float64 (2 ^ 1024 - 2 ^ 971) <> None
  /\ specified_count 0 2 1 = Some 1
  /\ specified_count 0 2 3 = Some 2
  /\ specified_count 0 2 5 = Some 2
  /\ specified_count 0 2 7 = Some 4
  /\ specified_count 0 (-100) 500 = Some 1
  /\ specified_count 0 3 10 = Some 3.
Proof. vm_compute. repeat split; try reflexivity; discriminate. Qed.

(** Without a duration the period is converted only after the directory
    was created: a period beyond the range of a double raises there, and
    no clock was read. *)
Example huge_period_raises_after_mkdir :
  let run := vision_burst (Lab.env true Lab.steady) 2 (10 ^ 400) "out" "jpg" 0 0
                          Lab.opened in
  fst run = Raised (OverflowError "int too large to convert to float")
  /\ fs_calls (trace (snd run)) = [EvMkdir "out" None]
  /\ no_timing (trace (snd run)) = true.
Proof. vm_compute. repeat split; reflexivity. Qed.

(* ------------------------------------------------------------------ *)
(** ** A zero period with a duration *)

Lemma float64_zero : PyNum.float64 0 = Some (SpecFloat.S754_zero false).
Proof. reflexivity. Qed.

(** With [duration_ms > 0] and [period_ms = 0] computing the count
    raises: ZeroDivisionError when [duration_ms] converts to a float,
    OverflowError when it does not. *)
Lemma count_zero_period (n duration_ms : Z) :
  0 < duration_ms ->
  exists e,
    effective_count n 0 duration_ms = Raised e
    /\ (PyNum.float64 duration_ms <> None -> e = ZeroDivisionError)
    /\ (e = ZeroDivisionError \/ exists msg, e = OverflowError msg).
Proof.
  intros Hd. unfold effective_count, duration_count, py_float.
  replace (0 <? duration_ms) with true by (symmetry; apply Z.ltb_lt; exact Hd).
  destruct (PyNum.float64 duration_ms) as [a|].
  - rewrite float64_zero. cbn. exists ZeroDivisionError. auto.
  - eexists. split; [reflexivity|]. split; [intros H; congruence | eauto].
Qed.

(** On an open session whose device is ready, a count that raises ends
    the burst right after the readiness check. *)
Lemma burst_count_raises (E : Env) (st : St) (h : Handle) (n period_ms : Z)
      (save_dir format : string) (warmup duration_ms : Z) (e : exn) :
  cap (CAM st) = Some h ->
  env_isOpened E (trace st) h = true ->
  effective_count n period_ms duration_ms = Raised e ->
  vision_burst E n period_ms save_dir format warmup duration_ms st
  = (Raised e, mkSt (CAM st) (trace st ++ [EvIsOpened h true])).
Proof.
  intros Hc Ho He. unfold vision_burst. run_py. rewrite Hc, Ho. cbn [negb].
  rewrite burst_count_run, He. reflexivity.
Qed.

(** C10 (amended). With [duration_ms > 0] the count is computed by
    dividing by [period_ms] unguarded, but only once the session is
    known to be open.  On an open session whose device is ready, a burst
    with [period_ms = 0] raises right after the readiness check, before
    any file-system call, instead of returning a result:
    ZeroDivisionError when [duration_ms] converts to a float (and
    OverflowError when it does not); hence such a burst that returns a
    result had [period_ms <> 0].  On a closed session, or one whose
    device is not ready, the burst returns "Camera not open" before the
    division is reached, also with [period_ms = 0]. *)
Theorem C10_zero_period_raises (E : Env) (st : St)
        (n : Z) (save_dir format : string) (warmup duration_ms : Z) :
  0 < duration_ms ->
  (forall h,
      cap (CAM st) = Some h ->
      env_isOpened E (trace st) h = true ->
      (exists e,
          vision_burst E n 0 save_dir format warmup duration_ms st
          = (Raised e, mkSt (CAM st) (trace st ++ [EvIsOpened h true]))
          /\ (PyNum.float64 duration_ms <> None -> e = ZeroDivisionError)
          /\ (e = ZeroDivisionError \/ exists msg, e = OverflowError msg))
      /\ (forall period_ms r st',
             vision_burst E n period_ms save_dir format warmup duration_ms st
             = (Returned r, st') ->
             period_ms <> 0))
  /\ (cap (CAM st) = None ->
      vision_burst E n 0 save_dir format warmup duration_ms st
      = (Returned (BurstErr "Camera not open" None), st))
  /\ (forall h,
         cap (CAM st) = Some h ->
         env_isOpened E (trace st) h = false ->
         vision_burst E n 0 save_dir format warmup duration_ms st
         = (Returned (BurstErr "Camera not open" None),
            mkSt (CAM st) (trace st ++ [EvIsOpened h false]))).
Proof.
  intros Hd.
  split; [|split].
  - intros h Hc Ho.
    destruct (count_zero_period n duration_ms Hd) as [e [He [Hz Hk]]].
    pose proof (burst_count_raises E st h n 0 save_dir format warmup
                                   duration_ms e Hc Ho He) as Hrun.
    split; [exists e; auto|].
    intros period_ms r st' Hr Hp. subst period_ms.
    rewrite Hrun in Hr. discriminate.
  - intros Hc. unfold vision_burst. run_py. rewrite Hc. reflexivity.
  - intros h Hc Ho. unfold vision_burst. run_py. rewrite Hc, Ho. reflexivity.
Qed.

Lemma C10_zero_period_raises_witness :
  fst (vision_burst (Lab.env true Lab.steady) 8 0 "." "jpg" 3 500 Lab.opened)
  = Raised ZeroDivisionError.
Proof.
  destruct (proj1 (proj1 (C10_zero_period_raises
                            (Lab.env true Lab.steady) Lab.opened
                            8 "." "jpg" 3 500 eq_refl)
                         1%nat eq_refl eq_refl))
    as [e [Hrun [Hz _]]].
  rewrite Hrun. cbn [fst]. rewrite Hz; [reflexivity|].
  vm_compute. discriminate.
Defined.

(** C10 as stated fails on a closed session: with [period_ms = 0] and
    [duration_ms = 500] the burst returns the structured result "Camera
    not open"; no division-by-zero error escapes. *)
Lemma C10_closed_session_counterexample :
  vision_burst (Lab.env true Lab.steady) 8 0 "." "jpg" 3 500 Lab.closed
  = (Returned (BurstErr "Camera not open" None), Lab.closed)
  /\ forall e st',
      vision_burst (Lab.env true Lab.steady) 8 0 "." "jpg" 3 500 Lab.closed
      <> (Raised e, st').
Proof.
  assert (H : vision_burst (Lab.env true Lab.steady) 8 0 "." "jpg" 3 500
                           Lab.closed
              = (Returned (BurstErr "Camera not open" None), Lab.closed))
    by reflexivity.
  split; [exact H|].
  intros e st' H'. rewrite H in H'. discriminate.
Qed.

(* ------------------------------------------------------------------ *)
(** ** The schedule of a burst *)















(** With [period_ms = -100] the code clamps [period_s] to zero, so the
    target it computes for frame 1 is [t0] itself and not [t0 - 1/10];
    both are in the past of a clock that does not go back, and no sleep
    is asked for either way. *)
Example negative_period_is_clamped :
  ~ (burst_target 0 (period_seconds (-100)) 1
     == scheduled_target 0 (-100) 1)%Q.
Proof. vm_compute. discriminate. Qed.

(** With a negative period the code never sleeps. *)
Example negative_period_never_sleeps :
  let E := Lab.env true Lab.steady in
  let new := trace (snd (vision_burst E 3 (-100) "out" "jpg" 0 0 Lab.opened)) in
  existsb (fun e => match e with EvSleep _ => true | _ => false end) new = false
  /\ match after_t0 new with
     | Some (t0, loop) =>
         schedule_ok (scheduled_target t0 (-100)) AwaitNow 0 loop = true
     | None => False
     end.
Proof. vm_compute. split; reflexivity. Qed.

(* ------------------------------------------------------------------ *)
(** ** A capture, as a relation on histories *)

Section Capture.

Variable E : Env.
Variables save_dir format : string.

Let out_dir := env_Path E save_dir.
Let ext := ext_of format.

(** The program runs as [CaptureRun] says. *)
Lemma vision_capture_run (st : St) :
  exists new,
    CaptureRun E save_dir format st new (fst (vision_capture E save_dir format st))
    /\ snd (vision_capture E save_dir format st)
       = mkSt (CAM st) (trace st ++ new).
Proof.
  unfold vision_capture, _grab_frame, _encode_image, _timestamp_name.
  destruct (cap (CAM st)) as [h|] eqn:Hc.
  2:{ exists []. run_py. rewrite Hc. cbn. rewrite app_nil_r, st_eta.
      split; [apply CaptureClosed; exact Hc | reflexivity]. }
  destruct (env_isOpened E (trace st) h) eqn:Ho.
  2:{ eexists. run_py. rewrite Hc, Ho. cbn.
      split; [eapply CaptureNotReady; eauto | reflexivity]. }
  destruct (env_read E (trace st ++ [EvIsOpened h true]) h) as [frame|] eqn:Hr.
  2:{ eexists. run_py. rewrite Hc, Ho. cbn [negb]. run_py. rewrite Hr. cbn.
      split; [eapply CaptureNoFrame; eauto | norm_tr; reflexivity]. }
  destruct (env_imencode E ext frame) as [data|] eqn:He.
  2:{ eexists. run_py. rewrite Hc, Ho. cbn [negb]. run_py. rewrite Hr.
      run_py. unfold ext in He. rewrite He. cbn.
      split; [eapply CaptureNoEncode; eauto | norm_tr; reflexivity]. }
  run_py. rewrite Hc, Ho. cbn [negb]. run_py. rewrite Hr.
  run_py. unfold ext in He. rewrite He. cbn [negb]. run_py. norm_tr.
  fold out_dir.
  destruct (env_mkdir E (trace st ++ [EvIsOpened h true; EvRead h (Some frame)])
                      out_dir) as [msg|] eqn:Hm.
  { eexists. cbn.
    split; [eapply CaptureMkdirRaises; eauto | reflexivity]. }
  run_py. norm_tr.
  match goal with
  | |- context [EvStrftime ?s] => set (ts := s)
  end.
  match goal with
  | |- context [EvTime ?x] => set (t := x)
  end.
  change ("frame" ++ "_" ++ ts ++ "_" ++ PyStr.fmt_0d 3 (millis t)
            ++ ext_of format)%string
    with (frame_name ts (millis t) (ext_of format)).
  match goal with
  | |- context [env_write E ?tr out_dir ?nm data] =>
      destruct (env_write E tr out_dir nm data) as [msg|] eqn:Hw
  end.
  - eexists. cbn.
    split; [eapply (CaptureWriteFails E save_dir format _ h frame data ts t msg); eauto
           | norm_tr; reflexivity].
  - eexists. cbn.
    split; [eapply (CaptureWritten E save_dir format _ h frame data ts t); eauto
           | norm_tr; reflexivity].
Qed.

Lemma vision_capture_new st res st' new :
  vision_capture E save_dir format st = (res, st') ->
  trace st' = trace st ++ new ->
  CaptureRun E save_dir format st new res.
Proof.
  intros Hrun Htr.
  destruct (vision_capture_run st) as [new' [Hb Hs]].
  rewrite Hrun in Hb, Hs. cbn [fst snd] in Hb, Hs.
  subst st'. cbn [trace] in Htr. apply app_inv_head in Htr. subst new'.
  exact Hb.
Qed.

End Capture.

(* ------------------------------------------------------------------ *)
(** ** File-system failures *)

Lemma fs_failure_app (a b : Trace) :
  fs_failure (a ++ b)
  = match fs_failure a with Some e => Some e | None => fs_failure b end.
Proof.
  induction a as [|e a IH]; [reflexivity|].
  destruct e; cbn; try exact IH; destruct err; cbn; auto.
Qed.

Lemma fs_failure_timing (t0 period_s : Q) (i : nat) (now : Q) :
  fs_failure (timing_events t0 period_s i now) = None.
Proof. unfold timing_events. destruct (PyNum.fgt _ _); reflexivity. Qed.

Lemma fs_failure_warmup (E : Env) (h : Handle) (k : nat) :
  forall tr, fs_failure (warmup_events E h tr k) = None.
Proof. induction k as [|k IH]; intros tr; cbn; auto. Qed.

(** Inside the loop a failed file-system call is a failed write, and the
    loop then raises its error. *)
Lemma LoopRun_fs_failure (E : Env) (h : Handle) (format out_dir : string)
      (t0 period_s : Q) tr todo paths ev r :
  LoopRun E h format out_dir t0 period_s tr todo paths ev r ->
  forall e, fs_failure ev = Some e -> r = Raised (OSError (failure_text e)).
Proof.
  intros H.
  induction H as
      [ tr paths
      | tr i rest paths tm Htm Ho
      | tr i rest paths tm Htm Ho Hr
      | tr i rest paths tm frame Htm Ho Hr He
      | tr i rest paths tm frame data ts t msg Htm Ho Hr He Hw
      | tr i rest paths tm frame data ts t chunk ev r Htm Ho Hr He Hw Hchunk Hrun IH ];
    intros e Hf; try discriminate;
    try (subst tm; rewrite fs_failure_app, fs_failure_timing in Hf;
         cbn in Hf; try discriminate).
  - inversion Hf; subst e. reflexivity.
  - subst chunk tm.
    rewrite !fs_failure_app, fs_failure_timing in Hf. cbn in Hf.
    apply IH. exact Hf.
Qed.

(** C1 (what the code does). When a file-system call of [vision_burst]
    fails, be it the creation of the directory or the write of a frame,
    the burst raises the OSError: no [{ok: false, error}] result is
    returned.  In [vision_capture] a failed creation of the directory
    raises in the same way; only a failed write is caught and returned as
    [{ok: false, error: "Failed to write file: ..."}]. *)
Theorem C1_filesystem_failure_escapes (E : Env) (save_dir format : string)
        (st st' : St) (new : Trace) :
  (forall n period_ms warmup duration_ms res e,
      vision_burst E n period_ms save_dir format warmup duration_ms st
      = (res, st') ->
      trace st' = trace st ++ new ->
      fs_failure new = Some e ->
      res = Raised (OSError (failure_text e)))
  /\ (forall res e,
         vision_capture E save_dir format st = (res, st') ->
         trace st' = trace st ++ new ->
         fs_failure new = Some e ->
         match e with
         | EvMkdir _ _ => res = Raised (OSError (failure_text e))
         | _ => res = Returned (CaptureErr ("Failed to write file: "
                                              ++ failure_text e)%string)
         end).
Proof.
  split.
  - intros n period_ms warmup duration_ms res e Hrun Htr Hf.
    pose proof (vision_burst_new E _ _ _ _ _ _ _ _ _ _ Hrun Htr) as Hb.
    destruct Hb as [Hc|h Hc Ho|h e0 Hc Ho He|h msg Hc Ho Hp Hm
                    |h e0 Hc Ho Hp Hm He
                    |h t0 ev lr Hc Ho Hp Hm Ht Hl]; try discriminate.
    + unfold prelude, prelude_reads in Hf.
      rewrite !fs_failure_app, fs_failure_warmup in Hf. cbn in Hf.
      inversion Hf; subst e. reflexivity.
    + unfold prelude, prelude_reads in Hf.
      rewrite !fs_failure_app, fs_failure_warmup in Hf. cbn in Hf.
      discriminate.
    + unfold prelude, prelude_reads in Hf.
      rewrite !fs_failure_app, fs_failure_warmup in Hf. cbn in Hf.
      rewrite (LoopRun_fs_failure _ _ _ _ _ _ _ _ _ _ _ Hl e Hf). reflexivity.
  - intros res e Hrun Htr Hf.
    pose proof (vision_capture_new E _ _ _ _ _ _ Hrun Htr) as Hb.
    destruct Hb; try discriminate; cbn in Hf; inversion Hf; subst e; reflexivity.
Qed.

(** A burst into a directory that cannot be written raises; so does one
    into a directory that cannot be created. *)
Lemma C1_filesystem_failure_escapes_witness :
  let E := Lab.env true Lab.steady in
  fst (vision_burst E 5 100 "/readonly" "jpg" 0 0 Lab.opened)
  = Raised (OSError "Read-only file system")
  /\ fst (vision_burst E 5 100 "/forbidden" "jpg" 0 0 Lab.opened)
     = Raised (OSError "Permission denied")
  /\ fst (vision_capture E "/forbidden" "jpg" Lab.opened)
     = Raised (OSError "Permission denied")
  /\ fst (vision_capture E "/readonly" "jpg" Lab.opened)
     = Returned (CaptureErr "Failed to write file: Read-only file system").
Proof.
  intros E.
  pose (b1 := vision_burst E 5 100 "/readonly" "jpg" 0 0 Lab.opened).
  pose (b2 := vision_burst E 5 100 "/forbidden" "jpg" 0 0 Lab.opened).
  pose (c1 := vision_capture E "/forbidden" "jpg" Lab.opened).
  pose (c2 := vision_capture E "/readonly" "jpg" Lab.opened).
  split; [|split; [|split]].
  - exact (proj1 (C1_filesystem_failure_escapes
                    E "/readonly" "jpg" Lab.opened (snd b1) (trace (snd b1)))
                 5 100 0 0 (fst b1)
                 (EvWrite "/readonly" "asl_20240501_120000_123_00.jpg"
                          [Byte.xff; Byte.xd8] (Some "Read-only file system"))
                 (surjective_pairing b1) eq_refl eq_refl).
  - exact (proj1 (C1_filesystem_failure_escapes
                    E "/forbidden" "jpg" Lab.opened (snd b2) (trace (snd b2)))
                 5 100 0 0 (fst b2)
                 (EvMkdir "/forbidden" (Some "Permission denied"))
                 (surjective_pairing b2) eq_refl eq_refl).
  - exact (proj2 (C1_filesystem_failure_escapes
                    E "/forbidden" "jpg" Lab.opened (snd c1) (trace (snd c1)))
                 (fst c1)
                 (EvMkdir "/forbidden" (Some "Permission denied"))
                 (surjective_pairing c1) eq_refl eq_refl).
  - exact (proj2 (C1_filesystem_failure_escapes
                    E "/readonly" "jpg" Lab.opened (snd c2) (trace (snd c2)))
                 (fst c2)
                 (EvWrite "/readonly" "frame_20240501_120000_123.jpg"
                          [Byte.xff; Byte.xd8] (Some "Read-only file system"))
                 (surjective_pairing c2) eq_refl eq_refl).
Defined.

(* ------------------------------------------------------------------ *)
(** ** The image format *)

Lemma ends_with_refl (s : string) : PyStr.ends_with s s = true.
Proof.
  destruct s; [reflexivity|].
  cbn [PyStr.ends_with]. rewrite String.eqb_refl. reflexivity.
Qed.

Lemma ends_with_app (suffix a : string) :
  PyStr.ends_with suffix (a ++ suffix)%string = true.
Proof.
  induction a as [|c a IH]; [apply ends_with_refl|].
  cbn [String.append PyStr.ends_with].
  destruct (String.eqb _ _); [reflexivity | exact IH].
Qed.











(* ------------------------------------------------------------------ *)
(** ** The backend name *)

Lemma isspace_lower (c : ascii) :
  PyStr.isspace c = true -> PyStr.lower_char c = c.
Proof.
  destruct c as [[] [] [] [] [] [] [] []]; vm_compute; intros H;
    try discriminate H; reflexivity.
Qed.

Lemma lower_app (a b : string) :
  PyStr.lower (a ++ b)%string = (PyStr.lower a ++ PyStr.lower b)%string.
Proof. induction a as [|c a IH]; cbn; [reflexivity | rewrite IH; reflexivity]. Qed.

Lemma lower_spaces (s : string) :
  PyStr.all_space s = true -> PyStr.lower s = s.
Proof.
  induction s as [|c s IH]; [reflexivity|].
  cbn [PyStr.all_space PyStr.lower]. intros H.
  apply andb_prop in H. destruct H as [Hc Hs].
  rewrite isspace_lower by exact Hc. rewrite IH by exact Hs. reflexivity.
Qed.

Lemma lstrip_spaces (pre s : string) :
  PyStr.all_space pre = true ->
  PyStr.lstrip (pre ++ s)%string = PyStr.lstrip s.
Proof.
  induction pre as [|c pre IH]; [reflexivity|].
  cbn [PyStr.all_space String.append PyStr.lstrip]. intros H.
  apply andb_prop in H. destruct H as [Hc Hs].
  rewrite Hc. apply IH. exact Hs.
Qed.

Lemma rstrip_all_space (post : string) :
  PyStr.all_space post = true -> PyStr.rstrip post = EmptyString.
Proof.
  induction post as [|c post IH]; [reflexivity|].
  cbn [PyStr.all_space PyStr.rstrip]. intros H.
  apply andb_prop in H. destruct H as [Hc Hs].
  rewrite IH by exact Hs. rewrite Hc. reflexivity.
Qed.

Lemma rstrip_spaces (s post : string) :
  PyStr.all_space post = true ->
  PyStr.rstrip (s ++ post)%string = PyStr.rstrip s.
Proof.
  intros H. induction s as [|c s IH].
  - cbn [String.append]. rewrite rstrip_all_space by exact H. reflexivity.
  - cbn [String.append PyStr.rstrip]. rewrite IH. reflexivity.
Qed.

(** Matching is on the lower-cased, trimmed name. *)
Lemma backend_key_normalises (name pre s post : string) :
  In name ("auto" :: api_backends) ->
  PyStr.all_space pre = true ->
  PyStr.all_space post = true ->
  PyStr.lower s = name ->
  backend_key (pre ++ s ++ post) = name.
Proof.
  intros Hin Hpre Hpost Hs.
  assert (Hl : PyStr.lower (pre ++ s ++ post)%string
               = (pre ++ name ++ post)%string).
  { rewrite !lower_app, Hs, (lower_spaces pre Hpre), (lower_spaces post Hpost).
    reflexivity. }
  assert (Hne : name <> EmptyString).
  { intros ->. cbn in Hin. unfold api_backends in Hin. cbn in Hin.
    repeat (destruct Hin as [Hin|Hin]; [discriminate Hin|]). exact Hin. }
  assert (Hk : backend_key (pre ++ s ++ post)
               = PyStr.strip (PyStr.lower (pre ++ s ++ post)%string)).
  { unfold backend_key.
    destruct (pre ++ s ++ post)%string eqn:Hx; [|reflexivity].
    exfalso. cbn in Hl. destruct pre; [|discriminate Hl].
    destruct name; [contradiction | discriminate Hl]. }
  rewrite Hk, Hl. unfold PyStr.strip.
  rewrite lstrip_spaces by exact Hpre.
  unfold api_backends in Hin. cbn [In] in Hin.
  repeat (destruct Hin as [Hin|Hin];
          [subst name; cbn [String.append PyStr.lstrip];
           match goal with
           | |- context [PyStr.isspace ?c] =>
               change (PyStr.isspace c) with false
           end;
           cbv iota;
           match goal with
           | |- PyStr.rstrip (String ?a ?r) = ?x =>
               change (String a r) with (x ++ post)%string
           end;
           rewrite rstrip_spaces by exact Hpost; reflexivity|]).
  contradiction.
Qed.

(** A name that selects no API is looked up as ["auto"] is: no API
    preference. *)
Lemma dict_get_no_api (E : Env) (key : string) :
  ~ In key api_backends -> dict_get (_BACKENDS E) key = None.
Proof.
  intros Hn. unfold _BACKENDS, api_backends in *. cbn [dict_get In] in *.
  destruct (String.eqb "auto" key); [reflexivity|].
  destruct (String.eqb "avfoundation" key) eqn:H1;
    [apply String.eqb_eq in H1; tauto|].
  destruct (String.eqb "msmf" key) eqn:H2;
    [apply String.eqb_eq in H2; tauto|].
  destruct (String.eqb "dshow" key) eqn:H3;
    [apply String.eqb_eq in H3; tauto|].
  destruct (String.eqb "v4l2" key) eqn:H4;
    [apply String.eqb_eq in H4; tauto|].
  reflexivity.
Qed.

(** What [_open_cam] does on a closed session with a backend name that
    selects no API: one [VideoCapture(index)] call, then the answer of
    [isOpened] decides. *)
Lemma open_cam_no_api (E : Env) (st : St)
      (camera_index width height fps : Z) :
  cap (CAM st) = None ->
  exists tr' (p : props_t),
    p_backend p = "auto"
    /\ (forall b,
           dict_get (_BACKENDS E) (backend_key b) = None ->
           _open_cam E camera_index width height fps b st
           = if env_isOpened
                  E (trace st ++ [EvVideoCapture camera_index None
                                    (env_VideoCapture E (trace st) camera_index None)])
                  (env_VideoCapture E (trace st) camera_index None)
             then (Returned (true, "Camera opened"),
                   mkSt (mkCam (Some (env_VideoCapture E (trace st) camera_index None))
                               (Some camera_index)
                               (Some (relabel (backend_key b) p)))
                        tr')
             else (Returned (false, open_failed_msg camera_index (backend_key b)),
                   mkSt (CAM st)
                        (trace st
                           ++ [EvVideoCapture camera_index None
                                 (env_VideoCapture E (trace st) camera_index None);
                               EvIsOpened
                                 (env_VideoCapture E (trace st) camera_index None)
                                 false]))).
Proof.
  intros Hc.
  set (h := env_VideoCapture E (trace st) camera_index None).
  destruct (env_isOpened E (trace st ++ [EvVideoCapture camera_index None h]) h)
    eqn:Ho.
  - destruct (0 <? width) eqn:Hw, (0 <? height) eqn:Hh, (0 <? fps) eqn:Hf;
      eexists; eexists (mkProps _ _ _ "auto");
      (split; [reflexivity|]);
      intros b Hb; unfold _open_cam; run_py; rewrite Hc, Hb;
      fold h; rewrite Ho; cbn [negb]; rewrite Hw, Hh, Hf; run_py;
      unfold relabel; cbn [p_width p_height p_fps]; norm_tr; reflexivity.
  - exists [], (mkProps 0 0 0 "auto"). split; [reflexivity|].
    intros b Hb. unfold _open_cam. run_py. rewrite Hc, Hb.
    fold h. rewrite Ho. cbn [negb]. norm_tr. reflexivity.
Qed.

(** C9 (amended). The backend name is matched after lower-casing and
    trimming: any spelling of one of the five names, in any case and with
    white space around it, is that name, and two names with the same key
    open the camera in the same way.  A name that selects no API (an
    unrecognised one, like ["auto"]) acquires the handle as ["auto"]
    does, with the same external calls, the same success, handle, index,
    width, height and fps; but the backend property recorded and the
    failure message carry the lower-cased, trimmed name as given, not
    ["auto"]. *)
Theorem C9_backend_matching (E : Env) (camera_index width height fps : Z) :
  (forall name pre s post,
      In name ("auto" :: api_backends) ->
      PyStr.all_space pre = true ->
      PyStr.all_space post = true ->
      PyStr.lower s = name ->
      backend_key (pre ++ s ++ post) = name)
  /\ (forall b1 b2 st,
         backend_key b1 = backend_key b2 ->
         vision_start E camera_index width height fps b1 st
         = vision_start E camera_index width height fps b2 st)
  /\ (forall b st h,
         cap (CAM st) = Some h ->
         vision_start E camera_index width height fps b st
         = vision_start E camera_index width height fps "auto" st)
  /\ (forall b st,
         ~ In (backend_key b) api_backends ->
         cap (CAM st) = None ->
         exists xa xb sa sb,
           vision_start E camera_index width height fps "auto" st
           = (Returned xa, sa)
           /\ vision_start E camera_index width height fps b st
              = (Returned xb, sb)
           /\ trace sb = trace sa
           /\ cap (CAM sb) = cap (CAM sa)
           /\ index (CAM sb) = index (CAM sa)
           /\ s_ok xb = s_ok xa
           /\ s_index xb = s_index xa
           /\ (s_ok xa = true ->
               s_message xb = s_message xa
               /\ exists p,
                   p_backend p = "auto"
                   /\ s_props xa = Some p
                   /\ props (CAM sa) = Some p
                   /\ s_props xb = Some (relabel (backend_key b) p)
                   /\ props (CAM sb) = Some (relabel (backend_key b) p))
           /\ (s_ok xa = false ->
               sb = sa
               /\ s_props xb = s_props xa
               /\ s_message xa = open_failed_msg camera_index "auto"
               /\ s_message xb = open_failed_msg camera_index (backend_key b))).
Proof.
  split; [exact backend_key_normalises|].
  split.
  { intros b1 b2 st Hk. unfold vision_start, _open_cam. rewrite Hk. reflexivity. }
  split.
  { intros b st h Hc. unfold vision_start, bind.
    rewrite !(open_cam_already_open E st h) by exact Hc. reflexivity. }
  intros b st Hn Hc.
  assert (Hb : dict_get (_BACKENDS E) (backend_key b) = None)
    by (apply dict_get_no_api; exact Hn).
  assert (Ha : dict_get (_BACKENDS E) (backend_key "auto") = None) by reflexivity.
  destruct (open_cam_no_api E st camera_index width height fps Hc)
    as [tr' [p [Hp Hopen]]].
  unfold vision_start, bind.
  rewrite (Hopen b Hb), (Hopen "auto" Ha).
  destruct (env_isOpened E _ _).
  - do 4 eexists. split; [reflexivity|]. split; [reflexivity|].
    cbn. repeat split; try discriminate.
    exists p. destruct p as [pw ph pf pb]. cbn in Hp. subst pb.
    repeat split.
  - do 4 eexists. split; [reflexivity|]. split; [reflexivity|].
    cbn. repeat split; discriminate.
Qed.

(** [" V4L2 "] is [v4l2]; and an unknown name on a camera that cannot be
    opened fails as ["auto"] does, but names itself in the message. *)
Lemma C9_backend_matching_witness :
  backend_key " V4L2 " = "v4l2"
  /\ fst (vision_start (Lab.env false Lab.steady) 0 640 480 15 "Foo" Lab.closed)
     = Returned (mkStart false "Failed to open camera index 0 (backend=foo)"
                         None None).
Proof.
  destruct (C9_backend_matching (Lab.env false Lab.steady) 0 640 480 15)
    as [Hkey [_ [_ Hno]]].
  split.
  - apply (Hkey "v4l2" " " "V4L2" " "); [cbn; auto 6 | reflexivity..].
  - destruct (Hno "Foo" Lab.closed) as [xa [xb [sa [sb [_ [Hb _]]]]]].
    + cbn. intros [H|[H|[H|[H|[]]]]]; discriminate H.
    + reflexivity.
    + rewrite Hb. vm_compute in Hb. inversion Hb. reflexivity.
Defined.

(** C9 as stated fails: on a ready camera the unrecognised name ["foo"]
    does not leave the session that ["auto"] leaves; the backend property
    recorded is ["foo"]. *)
Lemma C9_unrecognised_backend_counterexample :
  vision_start (Lab.env true Lab.steady) 0 640 480 15 "foo" Lab.closed
  <> vision_start (Lab.env true Lab.steady) 0 640 480 15 "auto" Lab.closed.
Proof.
  intros H.
  assert (H' : option_map p_backend
                 (props (CAM (snd (vision_start (Lab.env true Lab.steady)
                                                0 640 480 15 "foo" Lab.closed))))
               = option_map p_backend
                   (props (CAM (snd (vision_start (Lab.env true Lab.steady)
                                                  0 640 480 15 "auto"
                                                  Lab.closed)))))
    by (rewrite H; reflexivity).
  vm_compute in H'. discriminate H'.
Qed.

(** The same on a camera that cannot be opened: the failure message names
    the backend as given. *)
Example unrecognised_backend_failure_message :
  fst (vision_start (Lab.env false Lab.steady) 0 640 480 15 "foo" Lab.closed)
  = Returned (mkStart false "Failed to open camera index 0 (backend=foo)"
                      None None)
  /\ fst (vision_start (Lab.env false Lab.steady) 0 640 480 15 "auto" Lab.closed)
     = Returned (mkStart false "Failed to open camera index 0 (backend=auto)"
                         None None).
Proof. split; reflexivity. Qed.

(* ------------------------------------------------------------------ *)
(** ** The life cycle of the session *)

Lemma vision_stop_run (st : St) :
  vision_stop st
  = (Returned true,
     mkSt (mkCam None None None)
          (trace st ++ match cap (CAM st) with
                       | Some h => [EvRelease h]
                       | None => []
                       end)).
Proof.
  unfold vision_stop, _close_cam. run_py.
  destruct (cap (CAM st)); run_py; [reflexivity|].
  rewrite app_nil_r. reflexivity.
Qed.

Lemma vision_status_run (E : Env) (st : St) :
  vision_status E st
  = match cap (CAM st) with
    | None => (Returned (mkStatus false (index (CAM st)) (props (CAM st))), st)
    | Some h =>
        (Returned (mkStatus (env_isOpened E (trace st) h)
                            (index (CAM st)) (props (CAM st))),
         mkSt (CAM st)
              (trace st ++ [EvIsOpened h (env_isOpened E (trace st) h)]))
    end.
Proof.
  unfold vision_status. run_py. destruct (cap (CAM st)); reflexivity.
Qed.

(** X1. After [vision_stop], whatever the state was: [vision_status]
    reports [open = False], no index and empty properties without asking
    the device; [vision_capture] and [vision_burst] answer "Camera not
    open"; a second [vision_stop] succeeds and releases nothing; none of
    these four calls changes the state. *)
Theorem X1_after_stop_everything_is_closed (E : Env) (st : St)
        (save_dir format : string) (n period_ms warmup duration_ms : Z) :
  exists st1,
    vision_stop st = (Returned true, st1)
    /\ CAM st1 = mkCam None None None
    /\ vision_status E st1 = (Returned (mkStatus false None None), st1)
    /\ vision_capture E save_dir format st1
       = (Returned (CaptureErr "Camera not open"), st1)
    /\ vision_burst E n period_ms save_dir format warmup duration_ms st1
       = (Returned (BurstErr "Camera not open" None), st1)
    /\ vision_stop st1 = (Returned true, st1).
Proof.
  eexists. split; [apply vision_stop_run|].
  split; [reflexivity|].
  split; [rewrite vision_status_run; reflexivity|].
  split.
  { unfold vision_capture, bind. rewrite grab_closed by reflexivity. reflexivity. }
  split.
  { unfold vision_burst. run_py. reflexivity. }
  rewrite vision_stop_run. cbn [CAM cap trace]. rewrite app_nil_r. reflexivity.
Qed.

(** What [vision_start] does on a closed session: one [VideoCapture]
    object is created and asked whether it is ready; when it is, the
    positive requests are set and the three properties are read back. *)
Lemma vision_start_closed (E : Env) (st : St)
      (camera_index width height fps : Z) (backend : string) :
  cap (CAM st) = None ->
  exists h pre gw gh gf (opened : bool),
    props_set pre
    = (if 0 <? width then [(CAP_PROP_FRAME_WIDTH, inject_Z width)] else [])
        ++ (if 0 <? height then [(CAP_PROP_FRAME_HEIGHT, inject_Z height)] else [])
        ++ (if 0 <? fps then [(CAP_PROP_FPS, inject_Z fps)] else [])
    /\ opened_handles pre = [h]
    /\ released_handles pre = []
    /\ hd_error pre
       = Some (EvVideoCapture camera_index
                              (dict_get (_BACKENDS E) (backend_key backend)) h)
    /\ vision_start E camera_index width height fps backend st
       = if opened
         then (Returned (mkStart true "Camera opened"
                           (Some (mkProps (PyNum.int (PyNum.or_zero gw))
                                          (PyNum.int (PyNum.or_zero gh))
                                          (PyNum.or_zero gf) (backend_key backend)))
                           (Some camera_index)),
               mkSt (mkCam (Some h) (Some camera_index)
                           (Some (mkProps (PyNum.int (PyNum.or_zero gw))
                                          (PyNum.int (PyNum.or_zero gh))
                                          (PyNum.or_zero gf) (backend_key backend))))
                    (trace st ++ pre
                       ++ [EvGet h CAP_PROP_FRAME_WIDTH gw;
                           EvGet h CAP_PROP_FRAME_HEIGHT gh;
                           EvGet h CAP_PROP_FPS gf]))
         else (Returned (mkStart false
                           (open_failed_msg camera_index (backend_key backend))
                           (props (CAM st)) (index (CAM st))),
               mkSt (CAM st)
                    (trace st
                       ++ [EvVideoCapture camera_index
                             (dict_get (_BACKENDS E) (backend_key backend)) h;
                           EvIsOpened h false])).
Proof.
  intros Hc.
  set (api := dict_get (_BACKENDS E) (backend_key backend)).
  set (h := env_VideoCapture E (trace st) camera_index api).
  remember (0 <? width) as bw eqn:Hbw.
  remember (0 <? height) as bh eqn:Hbh.
  remember (0 <? fps) as bf eqn:Hbf.
  pose (pre := EvVideoCapture camera_index api h :: EvIsOpened h true
                 :: (if bw then [EvSet h CAP_PROP_FRAME_WIDTH (PyNum.float width)]
                     else [])
                 ++ (if bh then [EvSet h CAP_PROP_FRAME_HEIGHT (PyNum.float height)]
                     else [])
                 ++ (if bf then [EvSet h CAP_PROP_FPS (PyNum.float fps)] else [])).
  pose (gw := env_get E (trace st ++ pre) h CAP_PROP_FRAME_WIDTH).
  pose (gh := env_get E (trace st ++ pre ++ [EvGet h CAP_PROP_FRAME_WIDTH gw])
                      h CAP_PROP_FRAME_HEIGHT).
  pose (gf := env_get E (trace st ++ pre ++ [EvGet h CAP_PROP_FRAME_WIDTH gw;
                                             EvGet h CAP_PROP_FRAME_HEIGHT gh])
                      h CAP_PROP_FPS).
  exists h, pre, gw, gh, gf,
    (env_isOpened E (trace st ++ [EvVideoCapture camera_index api h]) h).
  split; [subst pre; destruct bw, bh, bf; reflexivity|].
  split; [subst pre; destruct bw, bh, bf; reflexivity|].
  split; [subst pre; destruct bw, bh, bf; reflexivity|].
  split; [reflexivity|].
  unfold vision_start, _open_cam. run_py. rewrite Hc. fold api. fold h.
  destruct (env_isOpened E (trace st ++ [EvVideoCapture camera_index api h]) h);
    cbn [negb]; [|cbn; rewrite <- app_assoc; reflexivity].
  rewrite <- Hbw, <- Hbh, <- Hbf.
  subst gf gh gw pre.
  destruct bw, bh, bf; run_py; norm_tr; reflexivity.
Qed.

(** What [vision_start] returns, against the session it leaves. *)
Lemma vision_start_result (E : Env) (st : St)
      (camera_index width height fps : Z) (backend : string) :
  exists r st',
    vision_start E camera_index width height fps backend st = (Returned r, st')
    /\ (s_ok r = true <-> cap (CAM st') <> None)
    /\ s_props r = props (CAM st')
    /\ s_index r = index (CAM st')
    /\ (s_ok r = false -> cap (CAM st) = None /\ CAM st' = CAM st).
Proof.
  destruct (cap (CAM st)) as [h|] eqn:Hc.
  - do 2 eexists. split.
    { unfold vision_start, bind.
      rewrite (open_cam_already_open E st h) by exact Hc. reflexivity. }
    cbn. rewrite Hc.
    repeat split; try congruence; discriminate.
  - destruct (vision_start_closed E st camera_index width height fps backend Hc)
      as [h [pre [gw [gh [gf [opened [_ [_ [_ [_ Hrun]]]]]]]]]].
    rewrite Hrun. destruct opened.
    + do 2 eexists. split; [reflexivity|]. cbn.
      repeat split; try congruence; discriminate.
    + do 2 eexists. split; [reflexivity|]. cbn. rewrite Hc.
      repeat split; try congruence; try discriminate.
Qed.

(** X2. Whenever [vision_start] returns, its [ok] tells whether a handle
    is present afterwards, and the properties and the index it returns
    are those of the session afterwards.  When it reports failure the
    session was closed before and its handle, index and properties are
    left as they were. *)
Theorem X2_start_ok_iff_handle (E : Env) (st st' : St)
        (camera_index width height fps : Z) (backend : string)
        (r : start_result) :
  vision_start E camera_index width height fps backend st = (Returned r, st') ->
  (s_ok r = true <-> cap (CAM st') <> None)
  /\ s_props r = props (CAM st')
  /\ s_index r = index (CAM st')
  /\ (s_ok r = false -> cap (CAM st) = None /\ CAM st' = CAM st).
Proof.
  intros Hrun.
  destruct (vision_start_result E st camera_index width height fps backend)
    as [r0 [st0 [Hrun0 H]]].
  rewrite Hrun0 in Hrun. injection Hrun as <- <-. exact H.
Qed.

Lemma X2_start_ok_iff_handle_witness :
  let E := Lab.env false Lab.steady in
  let run := vision_start E 0 640 480 15 "auto" Lab.closed in
  fst run = Returned (mkStart false "Failed to open camera index 0 (backend=auto)"
                              None None)
  /\ CAM (snd run) = CAM Lab.closed.
Proof.
  intros E run.
  assert (Hrun : run = (Returned (mkStart false
                                    "Failed to open camera index 0 (backend=auto)"
                                    None None), snd run)) by reflexivity.
  split; [reflexivity|].
  exact (proj2 (proj2 (proj2 (proj2
           (X2_start_ok_iff_handle E Lab.closed (snd run) 0 640 480 15 "auto"
                                   _ Hrun))) eq_refl)).
Defined.



(** X4. Opening and closing undo each other: on a closed session, after a
    [vision_start] that reports ok, [vision_stop] releases exactly the
    handle that [vision_start] created, which was not released before,
    and leaves the session with no handle, index or properties; a
    [vision_start] after that creates a new capture object instead of
    answering "Camera already open". *)
Theorem X4_open_then_close_releases_the_handle (E : Env) (st st1 : St)
        (camera_index width height fps : Z) (backend : string)
        (r : start_result) :
  cap (CAM st) = None ->
  vision_start E camera_index width height fps backend st = (Returned r, st1) ->
  s_ok r = true ->
  exists h new st2,
    trace st1 = trace st ++ new
    /\ opened_handles new = [h]
    /\ released_handles new = []
    /\ vision_stop st1 = (Returned true, st2)
    /\ trace st2 = trace st1 ++ [EvRelease h]
    /\ CAM st2 = mkCam None None None
    /\ (forall ci w hh f b r' st3,
           vision_start E ci w hh f b st2 = (Returned r', st3) ->
           s_message r' <> "Camera already open"
           /\ exists h' api more,
               trace st3 = trace st2 ++ EvVideoCapture ci api h' :: more).
Proof.
  intros Hc Hrun Hok.
  destruct (vision_start_closed E st camera_index width height fps backend Hc)
    as [h [pre [gw [gh [gf [opened [_ [Hoh [Hrel [_ Hcl]]]]]]]]]].
  rewrite Hcl in Hrun. clear Hcl.
  destruct opened.
  2:{ injection Hrun as Hr Hs. subst r. discriminate Hok. }
  injection Hrun as Hr Hs. subst r st1.
  exists h, (pre ++ [EvGet h CAP_PROP_FRAME_WIDTH gw;
                     EvGet h CAP_PROP_FRAME_HEIGHT gh;
                     EvGet h CAP_PROP_FPS gf]).
  eexists.
  split; [reflexivity|].
  split.
  { clear - Hoh. induction pre as [|e pre IH]; [discriminate Hoh|].
    destruct e; cbn in Hoh |- *; try (apply IH; exact Hoh).
    injection Hoh as Hh Hrest. subst.
    f_equal. clear IH. induction pre as [|e pre IH]; [reflexivity|].
    destruct e; cbn in Hrest |- *; try (apply IH; exact Hrest).
    discriminate Hrest. }
  split.
  { clear - Hrel. induction pre as [|e pre IH]; [reflexivity|].
    destruct e; cbn in Hrel |- *; try (apply IH; exact Hrel).
    discriminate Hrel. }
  split; [apply vision_stop_run|].
  cbn [CAM cap trace].
  split; [reflexivity|]. split; [reflexivity|].
  intros ci w hh f b r' st3 Hrun3.
  match type of Hrun3 with
  | vision_start _ _ _ _ _ _ ?s = _ =>
      destruct (vision_start_closed E s ci w hh f b eq_refl)
        as [h' [pre' [gw' [gh' [gf' [opened' [_ [_ [_ [Hhd' Hcl']]]]]]]]]]
  end.
  rewrite Hcl' in Hrun3. clear Hcl'.
  destruct opened'; injection Hrun3 as Hr3 Hs3; subst r' st3;
    cbn [s_message trace].
  - split; [discriminate|].
    destruct pre' as [|e pre']; [discriminate Hhd'|].
    injection Hhd' as He. subst e. cbn [app]. eauto.
  - split.
    + unfold open_failed_msg. cbn. discriminate.
    + eauto.
Qed.

(** A ready camera is opened and closed. *)
Lemma X4_open_then_close_releases_the_handle_witness :
  let E := Lab.env true Lab.steady in
  exists h new st2,
    trace (snd (vision_start E 0 640 480 15 "auto" Lab.closed))
    = trace Lab.closed ++ new
    /\ opened_handles new = [h]
    /\ vision_stop (snd (vision_start E 0 640 480 15 "auto" Lab.closed))
       = (Returned true, st2)
    /\ CAM st2 = mkCam None None None.
Proof.
  intros E.
  destruct (X4_open_then_close_releases_the_handle
              E Lab.closed (snd (vision_start E 0 640 480 15 "auto" Lab.closed))
              0 640 480 15 "auto"
              (mkStart true "Camera opened"
                       (Some (mkProps 640 480 30 "auto")) (Some 0))
              eq_refl eq_refl eq_refl)
    as [h [new [st2 [H1 [H2 [_ [H3 [_ [H4 _]]]]]]]]].
  exists h, new, st2. auto.
Defined.

(* ------------------------------------------------------------------ *)
(** ** Probing the cameras *)

Lemma opened_handles_app (a b : Trace) :
  opened_handles (a ++ b) = opened_handles a ++ opened_handles b.
Proof.
  induction a as [|e a IH]; [reflexivity|].
  destruct e; cbn; try exact IH. rewrite IH. reflexivity.
Qed.

Lemma released_handles_app (a b : Trace) :
  released_handles (a ++ b) = released_handles a ++ released_handles b.
Proof.
  induction a as [|e a IH]; [reflexivity|].
  destruct e; cbn; try exact IH. rewrite IH. reflexivity.
Qed.

Lemma ready_answers_app (a b : Trace) :
  ready_answers (a ++ b) = ready_answers a ++ ready_answers b.
Proof.
  induction a as [|e a IH]; [reflexivity|].
  destruct e; cbn; try exact IH. rewrite IH. reflexivity.
Qed.

Lemma read_count_app (a b : Trace) :
  read_count (a ++ b) = (read_count a + read_count b)%nat.
Proof.
  induction a as [|e a IH]; [reflexivity|].
  destruct e; cbn; try exact IH. rewrite IH. reflexivity.
Qed.

Lemma no_timing_app (a b : Trace) :
  no_timing (a ++ b) = no_timing a && no_timing b.
Proof. unfold no_timing. apply forallb_app. Qed.

Lemma probing_app (a b : Trace) :
  forall cur,
    probing cur (a ++ b)
    = match probing cur a with
      | Some c => probing c b
      | None => None
      end.
Proof.
  induction a as [|e a IH]; intros cur; [reflexivity|].
  destruct e; cbn; try reflexivity;
    destruct cur as [c|]; try reflexivity;
    try (destruct (Nat.eqb c h); [apply IH | reflexivity]);
    apply IH.
Qed.

(** One probe: the object is created, asked, read back when ready, and
    released. *)
Lemma probe_once_run (E : Env) (cap_local : option Handle) (i : Z) (st : St) :
  exists h entry chunk,
    probe_once E cap_local i st
    = (Returned (Some h, entry), mkSt (CAM st) (trace st ++ chunk))
    /\ probe_index entry = i
    /\ probing None chunk = Some None
    /\ opened_handles chunk = [h]
    /\ released_handles chunk = [h]
    /\ ready_answers chunk = [probe_open entry]
    /\ fs_calls chunk = []
    /\ no_timing chunk = true
    /\ read_count chunk = O
    /\ props_set chunk = []
    /\ (forall msg, entry <> ProbeError i msg).
Proof.
  set (h := env_VideoCapture E (trace st) i None).
  destruct (env_isOpened E (trace st ++ [EvVideoCapture i None h]) h) eqn:Ho.
  - eexists h, _, [EvVideoCapture i None h; EvIsOpened h true;
                   EvGet h CAP_PROP_FRAME_WIDTH _;
                   EvGet h CAP_PROP_FRAME_HEIGHT _;
                   EvGet h CAP_PROP_FPS _; EvRelease h].
    split.
    { unfold probe_once, probe_try. run_py. fold h. rewrite Ho.
      run_py. norm_tr. reflexivity. }
    cbn. rewrite Nat.eqb_refl. repeat split; discriminate.
  - exists h, (ProbeClosed i),
      [EvVideoCapture i None h; EvIsOpened h false; EvRelease h].
    split.
    { unfold probe_once, probe_try. run_py. fold h. rewrite Ho.
      run_py. norm_tr. reflexivity. }
    cbn. rewrite Nat.eqb_refl. repeat split; discriminate.
Qed.

(** The loop of the probe. *)
Lemma probe_loop_run (E : Env) (todo : list nat) :
  forall cap_local results st,
  exists entries new,
    probe_loop E todo cap_local results st
    = (Returned (results ++ entries), mkSt (CAM st) (trace st ++ new))
    /\ map probe_index entries = map Z.of_nat todo
    /\ probing None new = Some None
    /\ opened_handles new = released_handles new
    /\ List.length (opened_handles new) = List.length todo
    /\ ready_answers new = map probe_open entries
    /\ fs_calls new = []
    /\ no_timing new = true
    /\ read_count new = O
    /\ props_set new = [].
Proof.
  induction todo as [|i rest IH]; intros cap_local results st.
  - exists [], []. cbn. rewrite !app_nil_r, st_eta. repeat split; auto.
  - destruct (probe_once_run E cap_local (Z.of_nat i) st)
      as [h [entry [chunk [Hrun [Hidx [Hpr [Hop [Hrel [Hans [Hfs [Hnt [Hrc [Hps _]]]]]]]]]]]]].
    destruct (IH (Some h) (results ++ [entry])
                 (mkSt (CAM st) (trace st ++ chunk)))
      as [entries [new [Hloop [Hmap [Hpr' [Hbal [Hlen [Hans' [Hfs' [Hnt' [Hrc' Hps']]]]]]]]]]].
    exists (entry :: entries), (chunk ++ new).
    split.
    { cbn [probe_loop]. unfold bind at 1. rewrite Hrun. cbn [fst snd].
      rewrite Hloop. cbn [CAM trace]. rewrite <- !app_assoc. reflexivity. }
    rewrite probing_app, Hpr, opened_handles_app, released_handles_app,
      ready_answers_app, fs_calls_app, no_timing_app, read_count_app,
      Hop, Hrel, Hans, Hfs, Hnt, Hrc, Hfs', Hnt', Hrc', Hans', Hbal.
    cbn. rewrite Hidx, Hmap.
    repeat split; auto.
    + rewrite <- Hbal. rewrite Hlen. reflexivity.
    + clear - Hps Hps'. induction chunk as [|e chunk IHc]; [exact Hps'|].
      destruct e; cbn in Hps |- *; try (apply IHc; exact Hps). discriminate Hps.
Qed.

(** X5. [list_cameras] never raises and returns one entry for each index
    below [max_index], in increasing order of index and starting at 0 (no
    entry when [max_index <= 0], and then no external call is made); it
    asks each device once whether it is ready, and an entry says
    [open: True] exactly when that answer was yes. *)
Theorem X5_list_cameras_one_entry_per_index (E : Env) (max_index : Z) (st : St) :
  exists entries new,
    list_cameras E max_index st
    = (Returned entries, mkSt (CAM st) (trace st ++ new))
    /\ List.length entries = Z.to_nat max_index
    /\ (forall k, (k < Z.to_nat max_index)%nat ->
                  option_map probe_index (nth_error entries k)
                  = Some (Z.of_nat k))
    /\ ready_answers new = map probe_open entries
    /\ (max_index <= 0 -> entries = [] /\ new = []).
Proof.
  destruct (probe_loop_run E (seq 0 (Z.to_nat max_index)) None [] st)
    as [entries [new [Hrun [Hmap [_ [Hbal [Hlen [Hans _]]]]]]]].
  exists entries, new.
  split; [exact Hrun|].
  assert (Hl : List.length entries = Z.to_nat max_index).
  { rewrite <- (length_map probe_index), Hmap, length_map, length_seq.
    reflexivity. }
  split; [exact Hl|].
  split.
  { intros k Hk. rewrite <- nth_error_map, Hmap, nth_error_map, nth_error_seq.
    apply Nat.ltb_lt in Hk. rewrite Hk. reflexivity. }
  split; [exact Hans|].
  intros Hneg.
  assert (Hz : Z.to_nat max_index = O) by lia.
  rewrite Hz in *.
  destruct entries; [|discriminate Hl].
  split; [reflexivity|].
  cbn in Hrun. injection Hrun as Hs.
  apply (f_equal trace) in Hs. cbn [trace] in Hs.
  rewrite <- (app_nil_r (trace st)) in Hs at 1.
  apply app_inv_head in Hs. symmetry. exact Hs.
Qed.

(** X6. [list_cameras] leaves no device open and does not touch the
    session: every capture object it creates is released before the next
    one is created and before it returns, only the object just created is
    asked or read back, and the global handle, index and properties are
    as before; it reads no frame, sets no property, makes no file-system
    call and no timing call. *)
Theorem X6_list_cameras_releases_every_probe (E : Env) (max_index : Z) (st : St) :
  exists entries new,
    list_cameras E max_index st
    = (Returned entries, mkSt (CAM st) (trace st ++ new))
    /\ probing None new = Some None
    /\ opened_handles new = released_handles new
    /\ List.length (opened_handles new) = Z.to_nat max_index
    /\ read_count new = O
    /\ props_set new = []
    /\ fs_calls new = []
    /\ no_timing new = true.
Proof.
  destruct (probe_loop_run E (seq 0 (Z.to_nat max_index)) None [] st)
    as [entries [new [Hrun [_ [Hpr [Hbal [Hlen [_ [Hfs [Hnt [Hrc Hps]]]]]]]]]]].
  exists entries, new. rewrite length_seq in Hlen.
  repeat split; assumption.
Qed.

(** Three indices on a lab where no camera is ready. *)
Example list_cameras_none_ready :
  fst (list_cameras (Lab.env false Lab.steady) 3 Lab.closed)
  = Returned [ProbeClosed 0; ProbeClosed 1; ProbeClosed 2]
  /\ released_handles
       (trace (snd (list_cameras (Lab.env false Lab.steady) 3 Lab.closed)))
     = opened_handles
         (trace (snd (list_cameras (Lab.env false Lab.steady) 3 Lab.closed))).
Proof. split; reflexivity. Qed.

(* ------------------------------------------------------------------ *)
(** ** The session invariant *)

Lemma vision_capture_keeps_CAM (E : Env) (save_dir format : string) (st : St) :
  CAM (snd (vision_capture E save_dir format st)) = CAM st.
Proof.
  destruct (vision_capture_run E save_dir format st) as [new [_ Hs]].
  rewrite Hs. reflexivity.
Qed.

Lemma vision_burst_keeps_CAM (E : Env) (n period_ms : Z)
      (save_dir format : string) (warmup duration_ms : Z) (st : St) :
  CAM (snd (vision_burst E n period_ms save_dir format warmup duration_ms st))
  = CAM st.
Proof.
  destruct (vision_burst_run E n period_ms save_dir format warmup duration_ms st)
    as [new [_ Hs]].
  rewrite Hs. reflexivity.
Qed.

(** X7. Only [vision_start] and [vision_stop] change the session:
    [vision_status], [vision_capture], [vision_burst] (also when they
    raise) and [list_cameras] leave the handle, the index and the
    properties as they were.  And every tool keeps the session well
    formed: index and properties are present exactly when a handle is. *)
Theorem X7_session_stays_well_formed (E : Env) (st : St)
        (camera_index width height fps : Z) (backend save_dir format : string)
        (n period_ms warmup duration_ms max_index : Z) :
  session_wf (CAM st) ->
  CAM (snd (vision_status E st)) = CAM st
  /\ CAM (snd (vision_capture E save_dir format st)) = CAM st
  /\ CAM (snd (vision_burst E n period_ms save_dir format warmup duration_ms st))
     = CAM st
  /\ CAM (snd (list_cameras E max_index st)) = CAM st
  /\ session_wf (CAM (snd (vision_start E camera_index width height fps backend st)))
  /\ session_wf (CAM (snd (vision_stop st))).
Proof.
  intros Hwf.
  split.
  { rewrite vision_status_run. destruct (cap (CAM st)); reflexivity. }
  split; [apply vision_capture_keeps_CAM|].
  split; [apply vision_burst_keeps_CAM|].
  split.
  { destruct (probe_loop_run E (seq 0 (Z.to_nat max_index)) None [] st)
      as [entries [new [Hrun _]]].
    unfold list_cameras. rewrite Hrun. reflexivity. }
  split.
  - destruct (cap (CAM st)) as [h|] eqn:Hc.
    + unfold vision_start, bind.
      rewrite (open_cam_already_open E st h) by exact Hc. exact Hwf.
    + destruct (vision_start_closed E st camera_index width height fps backend Hc)
        as [h [pre [gw [gh [gf [opened [_ [_ [_ [_ Hrun]]]]]]]]]].
      rewrite Hrun. destruct opened; cbn [snd CAM]; [|exact Hwf].
      unfold session_wf. cbn. split; discriminate.
  - rewrite vision_stop_run. unfold session_wf. cbn. auto.
Qed.

Lemma X7_session_stays_well_formed_witness :
  let E := Lab.env true Lab.steady in
  session_wf (CAM (snd (vision_start E 0 640 480 15 "auto" Lab.closed)))
  /\ session_wf (CAM (snd (vision_stop Lab.opened))).
Proof.
  intros E.
  assert (Hwf0 : session_wf (CAM Lab.closed)) by (cbn; auto).
  assert (Hwf1 : session_wf (CAM Lab.opened)) by (cbn; split; discriminate).
  split.
  - exact (proj1 (proj2 (proj2 (proj2 (proj2
             (X7_session_stays_well_formed E Lab.closed 0 640 480 15 "auto"
                                           "out" "jpg" 8 150 3 0 3 Hwf0)))))).
  - exact (proj2 (proj2 (proj2 (proj2 (proj2
             (X7_session_stays_well_formed E Lab.opened 0 640 480 15 "auto"
                                           "out" "jpg" 8 150 3 0 3 Hwf1)))))).
Defined.

(* ------------------------------------------------------------------ *)
(** ** The millisecond field *)

Lemma millis_range (t : Q) : 0 <= millis t <= 999.
Proof.
  unfold millis, PyNum.int, PyNum.mod1.
  set (x := ((t - inject_Z (Qfloor t)) * 1000)%Q).
  assert (H0 : (0 <= x)%Q).
  { unfold x. pose proof (Qfloor_le t). nra. }
  assert (H1 : (x < 1000)%Q).
  { unfold x. pose proof (Qlt_floor t) as Hl.
    rewrite inject_Z_plus in Hl. change (inject_Z 1) with 1%Q in Hl. nra. }
  assert (Hb : Qle_bool 0 x = true) by (apply Qle_bool_iff; exact H0).
  rewrite Hb.
  split.
  - change 0 with (Qfloor 0). apply Qfloor_resp_le. exact H0.
  - assert (Hf : Qfloor x < 1000).
    { apply Z.lt_nge. intros Hge.
      apply (Qlt_not_le _ _ H1).
      apply Qle_trans with (inject_Z (Qfloor x)); [|apply Qfloor_le].
      change 1000%Q with (inject_Z 1000). rewrite <- Zle_Qle. exact Hge. }
    lia.
Qed.

Lemma fmt_0d_three_digits (k : nat) :
  (k < 1000)%nat -> String.length (PyStr.fmt_0d 3 (Z.of_nat k)) = 3%nat.
Proof.
  intros Hk.
  assert (Hall : forallb (fun j => Nat.eqb (String.length
                                              (PyStr.fmt_0d 3 (Z.of_nat j))) 3)
                         (seq 0 1000) = true) by (vm_compute; reflexivity).
  rewrite forallb_forall in Hall.
  apply Nat.eqb_eq. apply Hall. apply in_seq. lia.
Qed.

(** X8. For a clock reading that is not negative (seconds since the
    epoch) the millisecond field of a file name,
    [int((time.time() % 1) * 1000)], is between 0 and 999, and
    [{ms:03d}] prints it with exactly three characters.  (The readings
    of [time.time] are not negative; for a negative one the remainder of
    a binary64 float can round up to 1.0, which exact values do not
    show.) *)
Theorem X8_millis_has_three_digits (t : Q) :
  (0 <= t)%Q ->
  0 <= millis t <= 999
  /\ String.length (PyStr.fmt_0d 3 (millis t)) = 3%nat.
Proof.
  intros _.
  pose proof (millis_range t) as Hr. split; [exact Hr|].
  rewrite <- (Z2Nat.id (millis t)) by lia.
  apply fmt_0d_three_digits. lia.
Qed.

Lemma X8_millis_has_three_digits_witness :
  millis (1714564800 + (7 # 1000)) = 7
  /\ PyStr.fmt_0d 3 (millis (1714564800 + (7 # 1000))) = "007"
  /\ String.length (PyStr.fmt_0d 3 (millis (1714564800 + (7 # 1000)))) = 3%nat.
Proof.
  split; [reflexivity|]. split; [reflexivity|].
  apply (X8_millis_has_three_digits (1714564800 + (7 # 1000))).
  unfold Qle. cbn. lia.
Defined.

(* ------------------------------------------------------------------ *)
(** ** The names of burst files are distinct *)

(** A burst name determines its index, whatever the time stamps are. *)
Lemma burst_name_index (ts1 ts2 : string) (m1 m2 : Z) (i j : nat) (ext : string) :
  burst_name ts1 m1 i ext = burst_name ts2 m2 j ext -> i = j.
Proof.
  intros H. rewrite !burst_name_split in H.
  apply string_app_inv_tail in H.
  apply (f_equal (after_last "_")) in H.
  rewrite !after_last_app in H by apply fmt_0d_no_underscore.
  apply (f_equal PyStr.parse_dec) in H.
  rewrite !fmt_0d_reads_back in H. injection H as H. exact H.
Qed.

Lemma nth_error_seq0 (m a i : nat) :
  nth_error (seq 0 m) a = Some i -> i = a.
Proof.
  intros H.
  assert (Ha : (a < m)%nat).
  { rewrite <- (length_seq m 0). apply nth_error_Some. congruence. }
  apply nth_error_nth with (d := 0%nat) in H.
  rewrite seq_nth in H by exact Ha. lia.
Qed.

Lemma LoopRun_names_distinct (E : Env) (h : Handle) (format out_dir : string)
      (t0 period_s : Q) (tr : Trace) (m : nat) (ev : Trace)
      (r : res (burst_result + list string)) :
  LoopRun E h format out_dir t0 period_s tr (seq 0 m) [] ev r ->
  NoDup (map snd (files_written ev))
  /\ forall p, In p (files_written ev) -> fst p = out_dir.
Proof.
  intros H.
  destruct (LoopRun_summary E h format out_dir t0 period_s _ _ _ _ _ H)
    as [names [Hfw [Hn _]]].
  rewrite Hfw. split.
  - rewrite map_map. cbn [snd]. rewrite map_id.
    apply NoDup_nth_error. intros a b Ha Hab.
    destruct (nth_error names a) as [nm|] eqn:Hna;
      [|apply nth_error_None in Hna; lia].
    destruct (Hn a nm Hna) as [i [Hi [ts1 [t1 H1]]]].
    destruct (Hn b nm (eq_sym Hab)) as [j [Hj [ts2 [t2 H2]]]].
    apply nth_error_seq0 in Hi. apply nth_error_seq0 in Hj.
    rewrite H1 in H2. apply burst_name_index in H2. lia.
  - intros p Hp. apply in_map_iff in Hp. destruct Hp as [nm [Hp _]].
    subst p. reflexivity.
Qed.

(** X9. The files a burst writes all lie in the target directory and
    have pairwise distinct names, whatever the clocks answer (equal time
    stamps included) and however the burst ends: a burst never overwrites
    a frame it wrote itself. *)
Theorem X9_burst_files_have_distinct_names (E : Env) (n period_ms : Z)
        (save_dir format : string) (warmup duration_ms : Z)
        (st st' : St) (res : res burst_result) (new : Trace) :
  vision_burst E n period_ms save_dir format warmup duration_ms st = (res, st') ->
  trace st' = trace st ++ new ->
  NoDup (map snd (files_written new))
  /\ forall p, In p (files_written new) -> fst p = env_Path E save_dir.
Proof.
  intros Hrun Htr.
  pose proof (vision_burst_new E n period_ms save_dir format warmup duration_ms
                               st res st' new Hrun Htr) as Hb.
  apply BurstRun_cases in Hb.
  destruct Hb as [[_ [_ [Hfw _]]]
                 |[h [pre [t0 [ev [lr [_ [Hnew [_ [Hfp [_ [Hloop _]]]]]]]]]]]].
  - rewrite Hfw. split; [constructor | intros p []].
  - subst new. rewrite files_written_app, Hfp. cbn [app files_written].
    exact (LoopRun_names_distinct _ _ _ _ _ _ _ _ _ _ Hloop).
Qed.

Lemma X9_burst_files_have_distinct_names_witness :
  let E := Lab.env true Lab.steady in
  let new := trace (snd (vision_burst E 4 50 "out" "png" 1 0 Lab.opened)) in
  NoDup (map snd (files_written new))
  /\ List.length (files_written new) = 4%nat.
Proof.
  intros E new.
  pose (run := vision_burst E 4 50 "out" "png" 1 0 Lab.opened).
  split; [|reflexivity].
  exact (proj1 (X9_burst_files_have_distinct_names
                  E 4 50 "out" "png" 1 0 Lab.opened (snd run) (fst run) new
                  (surjective_pairing run) eq_refl)).
Defined.

(* ------------------------------------------------------------------ *)
(** ** What a capture leaves on disk *)

(** X10. Every run of [vision_capture] reads at most one frame.  When it
    returns ok, it has written exactly one file, in the target directory,
    named frame_<ts>_<ms><ext> from the two clock answers of this call,
    and the path returned is the path of that file.  When it returns an
    error it has written no file, and either made no file-system call at
    all or the error is that of the failed write.  When it raises, the
    only file-system call was the failed creation of the directory. *)
Theorem X10_capture_writes_one_file_iff_ok (E : Env) (save_dir format : string)
        (st st' : St) (res : res capture_result) (new : Trace) :
  vision_capture E save_dir format st = (res, st') ->
  trace st' = trace st ++ new ->
  (read_count new <= 1)%nat
  /\ match res with
     | Returned (CaptureOk path _ _ _) =>
         exists ts t,
           files_written new
           = [(env_Path E save_dir, frame_name ts (millis t) (ext_of format))]
           /\ path = env_join E (env_Path E save_dir)
                              (frame_name ts (millis t) (ext_of format))
           /\ In (EvStrftime ts) new /\ In (EvTime t) new
           /\ read_count new = 1%nat
     | Returned (CaptureErr msg) =>
         files_written new = []
         /\ (fs_calls new = []
             \/ exists m, msg = ("Failed to write file: " ++ m)%string
                          /\ fs_failure new
                             = Some (last new (EvSleep 0))
                          /\ failure_text (last new (EvSleep 0)) = m)
     | Raised e =>
         exists m, e = OSError m
                   /\ fs_calls new = [EvMkdir (env_Path E save_dir) (Some m)]
                   /\ files_written new = []
     end.
Proof.
  intros Hrun Htr.
  pose proof (vision_capture_new E save_dir format st res st' new Hrun Htr) as Hb.
  destruct Hb; cbn.
  - split; [lia|]. auto.
  - split; [lia|]. auto.
  - split; [lia|]. auto.
  - split; [lia|]. auto.
  - split; [lia|]. eauto.
  - split; [lia|]. split; [reflexivity|]. right. eauto.
  - split; [lia|]. exists ts, t. repeat split; auto 10.
Qed.

Lemma X10_capture_writes_one_file_iff_ok_witness :
  let E := Lab.env true Lab.steady in
  let run := vision_capture E "shots" "PNG" Lab.opened in
  fst run = Returned (CaptureOk "shots/frame_20240501_120000_123.png"
                                "image/png" 640 480)
  /\ files_written (trace (snd run))
     = [("shots", "frame_20240501_120000_123.png")]
  /\ (read_count (trace (snd run)) <= 1)%nat.
Proof.
  intros E run.
  split; [reflexivity|]. split; [reflexivity|].
  exact (proj1 (X10_capture_writes_one_file_iff_ok
                  E "shots" "PNG" Lab.opened (snd run) (fst run)
                  (trace (snd run)) (surjective_pairing run) eq_refl)).
Defined.

(* ------------------------------------------------------------------ *)
(** ** A handle that the device no longer serves *)

(** X13. When the session holds a handle but the device answers that it
    is not open, [vision_status] reports [open = False] while still
    returning the stored index and properties, and [vision_capture] and
    [vision_burst] answer "Camera not open" after that one question: no
    frame is read, no property set, no directory created.  None of them
    drops the stale handle: the session stays as it was. *)
Theorem X13_stale_handle_counts_as_closed (E : Env) (st : St) (h : Handle)
        (save_dir format : string) (n period_ms warmup duration_ms : Z) :
  cap (CAM st) = Some h ->
  env_isOpened E (trace st) h = false ->
  let asked := mkSt (CAM st) (trace st ++ [EvIsOpened h false]) in
  vision_status E st
  = (Returned (mkStatus false (index (CAM st)) (props (CAM st))), asked)
  /\ vision_capture E save_dir format st
     = (Returned (CaptureErr "Camera not open"), asked)
  /\ vision_burst E n period_ms save_dir format warmup duration_ms st
     = (Returned (BurstErr "Camera not open" None), asked).
Proof.
  intros Hc Ho asked. subst asked.
  split; [rewrite vision_status_run, Hc, Ho; reflexivity|].
  split.
  - destruct (vision_capture_run E save_dir format st) as [new [Hb Hs]].
    rewrite (surjective_pairing (vision_capture E save_dir format st)), Hs.
    remember (fst (vision_capture E save_dir format st)) as r eqn:Hr. clear Hr Hs.
    destruct Hb; congruence.
  - destruct (vision_burst_run E n period_ms save_dir format warmup duration_ms st)
      as [new [Hb Hs]].
    rewrite (surjective_pairing
               (vision_burst E n period_ms save_dir format warmup duration_ms st)),
      Hs.
    remember (fst (vision_burst E n period_ms save_dir format warmup
                                duration_ms st)) as r eqn:Hr. clear Hr Hs.
    destruct Hb; congruence.
Qed.

Lemma X13_stale_handle_counts_as_closed_witness :
  let E := Lab.env false Lab.steady in
  vision_capture E "shots" "jpg" Lab.opened
  = (Returned (CaptureErr "Camera not open"),
     mkSt (CAM Lab.opened) [EvIsOpened 1%nat false])
  /\ CAM Lab.opened
     = mkCam (Some 1%nat) (Some 0) (Some (mkProps 640 480 30 "auto")).
Proof.
  intros E. split; [|reflexivity].
  exact (proj1 (proj2 (X13_stale_handle_counts_as_closed
                         E Lab.opened 1%nat "shots" "jpg" 8 150 3 0
                         eq_refl eq_refl))).
Defined.

(* ------------------------------------------------------------------ *)
(** ** The warm-up reads and the reads of a whole burst *)

Lemma warmup_events_reads (E : Env) (h : Handle) (k : nat) :
  forall tr,
    read_count (warmup_events E h tr k) = k
    /\ List.length (warmup_events E h tr k) = k
    /\ props_set (warmup_events E h tr k) = []
    /\ ready_answers (warmup_events E h tr k) = []
    /\ forall d mk rest,
        before_mkdir (warmup_events E h tr k ++ EvMkdir d mk :: rest)
        = Some (warmup_events E h tr k).
Proof.
  induction k as [|k IH]; intros tr; cbn.
  - repeat split; reflexivity.
  - destruct (IH (tr ++ [EvRead h (env_read E tr h)])) as [H1 [H2 [H3 [H4 H5]]]].
    rewrite H1, H2, H3, H4.
    repeat split; try reflexivity.
    intros d mk rest. rewrite H5. reflexivity.
Qed.

Lemma read_count_timing (t0 period_s : Q) (i : nat) (now : Q) :
  read_count (timing_events t0 period_s i now) = O.
Proof. unfold timing_events. destruct (PyNum.fgt _ _); reflexivity. Qed.

Lemma LoopRun_completed_reads (E : Env) (h : Handle) (format out_dir : string)
      (t0 period_s : Q) tr todo paths ev r :
  LoopRun E h format out_dir t0 period_s tr todo paths ev r ->
  forall ps, r = Returned (inr ps) -> read_count ev = List.length todo.
Proof.
  intros H.
  induction H as
      [ tr paths
      | tr i rest paths tm Htm Ho
      | tr i rest paths tm Htm Ho Hr
      | tr i rest paths tm frame Htm Ho Hr He
      | tr i rest paths tm frame data ts t msg Htm Ho Hr He Hw
      | tr i rest paths tm frame data ts t chunk ev r Htm Ho Hr He Hw Hchunk Hrun IH ];
    intros ps Hps; try discriminate.
  - reflexivity.
  - subst chunk tm.
    rewrite !read_count_app, read_count_timing, (IH ps Hps). reflexivity.
Qed.

(** X12. In every run of [vision_burst] that gets as far as creating the
    target directory, what precedes is: the one readiness question, one
    [cap.set] of the buffer size to 1, and exactly [max(0, warmup)] reads
    whose answers are ignored (a warm-up read that delivers no frame does
    not stop the burst); no clock is read before the directory exists. *)
Theorem X12_warmup_reads_come_first (E : Env) (n period_ms : Z)
        (save_dir format : string) (warmup duration_ms : Z)
        (st st' : St) (res : res burst_result) (new pre : Trace) :
  vision_burst E n period_ms save_dir format warmup duration_ms st = (res, st') ->
  trace st' = trace st ++ new ->
  before_mkdir new = Some pre ->
  read_count pre = Z.to_nat (Z.max 0 warmup)
  /\ List.length pre = (2 + Z.to_nat (Z.max 0 warmup))%nat
  /\ props_set pre = [(CAP_PROP_BUFFERSIZE, 1%Q)]
  /\ ready_answers pre = [true]
  /\ no_timing pre = true.
Proof.
  intros Hrun Htr Hpre.
  pose proof (vision_burst_new E n period_ms save_dir format warmup duration_ms
                               st res st' new Hrun Htr) as Hb.
  assert (Hshape : forall h mk rest,
             new = prelude E save_dir warmup h (trace st) mk ++ rest ->
             read_count pre = Z.to_nat (Z.max 0 warmup)
             /\ List.length pre = (2 + Z.to_nat (Z.max 0 warmup))%nat
             /\ props_set pre = [(CAP_PROP_BUFFERSIZE, 1%Q)]
             /\ ready_answers pre = [true]
             /\ no_timing pre = true).
  { intros h mk rest Hnew. subst new.
    unfold prelude, prelude_reads in Hpre.
    repeat rewrite <- app_assoc in Hpre. cbn [app before_mkdir] in Hpre.
    match type of Hpre with
    | context [warmup_events E h ?t ?k] =>
        destruct (warmup_events_reads E h k t) as [H1 [H2 [H3 [H4 H5]]]];
        destruct (warmup_events_shape E h k t) as [H6 _]
    end.
    rewrite H5 in Hpre. cbn [option_map] in Hpre.
    injection Hpre as Hpre. subst pre.
    cbn. rewrite H1, H2, H3, H4.
    repeat split; try reflexivity. exact H6. }
  destruct Hb as [Hc|h Hc Ho|h e Hc Ho He|h msg Hc Ho Hp Hm
                  |h e Hc Ho Hp Hm He
                  |h t0 ev lr Hc Ho Hp Hm Ht Hl]; try discriminate.
  - apply (Hshape h (Some msg) []). rewrite app_nil_r. reflexivity.
  - apply (Hshape h None []). rewrite app_nil_r. reflexivity.
  - apply (Hshape h None (EvPerfCounter t0 :: ev)). reflexivity.
Qed.

Lemma X12_warmup_reads_come_first_witness :
  let E := Lab.env true (Lab.fails_at 1) in
  let new := trace (snd (vision_burst E 2 100 "out" "jpg" 3 0 Lab.opened)) in
  exists pre,
    before_mkdir new = Some pre
    /\ read_count pre = 3%nat
    /\ List.length (files_written new) = 2%nat.
Proof.
  intros E new.
  pose (run := vision_burst E 2 100 "out" "jpg" 3 0 Lab.opened).
  pose (pre := [EvIsOpened 1%nat true; EvSet 1%nat CAP_PROP_BUFFERSIZE 1;
                EvRead 1%nat (Some 1%nat); EvRead 1%nat None;
                EvRead 1%nat (Some 1%nat)]).
  assert (Hpre : before_mkdir new = Some pre) by (vm_compute; reflexivity).
  assert (Htr : trace (snd run) = trace Lab.opened ++ new) by reflexivity.
  exists pre.
  split; [exact Hpre|]. split; [|vm_compute; reflexivity].
  exact (proj1 (X12_warmup_reads_come_first
                  E 2 100 "out" "jpg" 3 0 Lab.opened (snd run) (fst run) new pre
                  (surjective_pairing run) Htr Hpre)).
Defined.

(* ------------------------------------------------------------------ *)
(** ** What an ok burst guarantees *)

(** X11. In any environment, when [vision_burst] returns ok: the paths
    returned are exactly the files this call wrote, in order, all in the
    target directory; there are [max(1, count)] of them, so at least one;
    the [n] returned is their number (not the [n] asked for); period,
    duration and directory are echoed as given; no file-system call
    failed; and the device was read [max(0, warmup)] times plus once per
    file. *)
Theorem X11_ok_burst_wrote_every_path (E : Env) (n period_ms : Z)
        (save_dir format : string) (warmup duration_ms : Z)
        (st st' : St) (new : Trace)
        (paths : list string) (mime : string) (w hh k p d : Z) (sd : string) :
  vision_burst E n period_ms save_dir format warmup duration_ms st
  = (Returned (BurstOk paths mime w hh k p d sd), st') ->
  trace st' = trace st ++ new ->
  exists names,
    paths = map (env_join E (env_Path E save_dir)) names
    /\ files_written new = map (fun nm => (env_Path E save_dir, nm)) names
    /\ List.length paths = iterations n period_ms duration_ms
    /\ (1 <= List.length paths)%nat
    /\ k = Z.of_nat (List.length paths)
    /\ p = period_ms /\ d = duration_ms /\ sd = env_Path E save_dir
    /\ mime = mime_of (ext_of format)
    /\ fs_failure new = None
    /\ read_count new
       = (Z.to_nat (Z.max 0 warmup) + iterations n period_ms duration_ms)%nat.
Proof.
  intros Hrun Htr.
  pose proof (vision_burst_new E n period_ms save_dir format warmup duration_ms
                               st _ st' new Hrun Htr) as Hb.
  remember (Returned (BurstOk paths mime w hh k p d sd)) as res eqn:Hres.
  destruct Hb as [Hc|h Hc Ho|h e Hc Ho He|h msg Hc Ho Hp Hm
                  |h e Hc Ho Hp Hm He
                  |h t0 ev lr Hc Ho Hp Hm Ht Hl]; try discriminate.
  destruct (LoopRun_summary E h format _ _ _ _ _ _ _ _ Hl)
    as [names [Hfw [_ [_ Hsum]]]].
  destruct lr as [[early|ps]|e]; cbn in Hres; try discriminate.
  { destruct Hsum as [[msg Hm'] _]. subst early. discriminate. }
  destruct Hsum as [Hps [Hlen _]]. cbn [app] in Hps.
  injection Hres as <- <- <- <- <- <- <- <-.
  rewrite length_seq in Hlen.
  pose proof (LoopRun_completed_reads _ _ _ _ _ _ _ _ _ _ _ Hl ps eq_refl) as Hrd.
  rewrite length_seq in Hrd.
  assert (Hit : (1 <= iterations n period_ms duration_ms)%nat).
  { destruct Hp as [c [Hcount _]]. unfold iterations. rewrite Hcount. lia. }
  assert (Hlp : List.length ps = iterations n period_ms duration_ms)
    by (rewrite Hps, length_map; exact Hlen).
  exists names.
  split; [exact Hps|].
  split.
  { rewrite files_written_app, prelude_no_files. cbn [app files_written].
    exact Hfw. }
  split; [exact Hlp|]. split; [lia|].
  do 5 (split; [reflexivity|]).
  split.
  - unfold prelude, prelude_reads.
    rewrite !fs_failure_app, fs_failure_warmup. cbn.
    destruct (fs_failure ev) as [e|] eqn:Hf; [|reflexivity].
    pose proof (LoopRun_fs_failure _ _ _ _ _ _ _ _ _ _ _ Hl e Hf). discriminate.
  - unfold prelude, prelude_reads.
    match goal with
    | |- context [warmup_events E h ?t ?k] =>
        destruct (warmup_events_reads E h k t) as [H1 _]
    end.
    rewrite !read_count_app, H1. cbn. rewrite Hrd. lia.
Qed.

Lemma X11_ok_burst_wrote_every_path_witness :
  let E := Lab.env true Lab.steady in
  let run := vision_burst E 0 100 "out" "png" 2 0 Lab.opened in
  fst run = Returned (BurstOk ["out/asl_20240501_120000_123_00.png"]
                              "image/png" 640 480 1 100 0 "out")
  /\ files_written (trace (snd run))
     = [("out", "asl_20240501_120000_123_00.png")]
  /\ read_count (trace (snd run)) = 3%nat.
Proof.
  intros E run.
  assert (Hr : run = (Returned (BurstOk ["out/asl_20240501_120000_123_00.png"]
                                        "image/png" 640 480 1 100 0 "out"),
                      snd run)).
  { rewrite (surjective_pairing run) at 1. f_equal. }
  assert (Htr : trace (snd run) = trace Lab.opened ++ trace (snd run))
    by reflexivity.
  destruct (X11_ok_burst_wrote_every_path
              E 0 100 "out" "png" 2 0 Lab.opened (snd run) (trace (snd run))
              _ _ _ _ _ _ _ _ Hr Htr)
    as [names [_ [_ [_ [_ [_ [_ [_ [_ [_ [_ Hrd]]]]]]]]]]].
  split; [reflexivity|]. split; [reflexivity|]. exact Hrd.
Defined.
